(** * chatbot-backend: the /chat endpoint of [main.py]

    A shallow embedding of the request/response adapter of [main.py]:
    the wire models ([ChatMessage], [ChatRequest], [ChatResponse]), the
    conversation messages handed to and received from the agent runtime,
    the two search tools, and the handler [chat_endpoint] with its
    [try]/[except] boundary.

    The language model, the agent runtime ([create_react_agent]), the
    search provider and the checks that the message classes run on their
    arguments belong to third-party libraries; they are Section variables
    here, and every theorem holds for all of their behaviours. *)

From Stdlib Require Import List String Ascii Bool ZArith Lia.
Import ListNotations.
Local Open Scope string_scope.

(** ** Python values *)

(** [Any]: the JSON-like values a request body and a [Dict[str, Any]] hold.
    A [dict] keeps its insertion order, hence an association list. *)
#[warnings="-register-all"]
Inductive Any : Type :=
| PyNone
| PyBool (b : bool)
| PyInt (z : Z)
| PyStr (s : string)
| PyList (items : list Any)
| PyDict (fields : list (string * Any)).

(** [Dict[str, Any]]. *)
Definition Dict : Type := list (string * Any).

(** [d.get(key)]. *)
Fixpoint dict_get (key : string) (d : Dict) : option Any :=
  match d with
  | [] => None
  | (k, v) :: rest => if String.eqb k key then Some v else dict_get key rest
  end.

(** An exception caught by [except Exception]: its class name and the text
    [str(e)] gives. *)
Record Exception : Type := mkException {
  exc_class : string;
  exc_str : string
}.

(** ** Computations that may raise *)

Inductive Result (A : Type) : Type :=
| Ok (a : A)
| Raise (e : Exception).
Arguments Ok {A} a.
Arguments Raise {A} e.

Definition bind {A B : Type} (m : Result A) (k : A -> Result B) : Result B :=
  match m with
  | Ok a => k a
  | Raise e => Raise e
  end.

Notation "x <- m ;; k" := (bind m (fun x => k))
  (at level 61, m at next level, right associativity).

(** [try: body  except Exception as e: handler(e)]. *)
Definition try_except {A : Type} (body : Result A) (handler : Exception -> Result A)
  : Result A :=
  match body with
  | Ok a => Ok a
  | Raise e => handler e
  end.

(** A list comprehension [[f(x) for x in xs]] whose element expression may
    raise: elements are computed left to right, the first exception ends it. *)
Fixpoint comprehension {A B : Type} (f : A -> Result B) (xs : list A)
  : Result (list B) :=
  match xs with
  | [] => Ok []
  | x :: rest =>
      y <- f x ;;
      ys <- comprehension f rest ;;
      Ok (y :: ys)
  end.

(** ** Conversation messages (langchain_core.messages) *)

(** A tool-call record of an assistant message.  The handler passes the wire
    records ([Dict[str, Any]]) to [AIMessage] as they are. *)
Definition ToolCall : Type := Dict.

(** [BaseMessage] and the three subclasses the handler inspects with
    [isinstance]; [OtherMessage] stands for every other subclass (system,
    function, chat messages), which no branch of the handler matches. *)
Inductive BaseMessage : Type :=
| HumanMessage (content : string)
| AIMessage (content : string) (tool_calls : list ToolCall)
| ToolMessage (content : string) (tool_call_id : string)
| OtherMessage (content : string).

(** ** Wire models (pydantic) *)

(** [class ChatMessage(BaseModel)]: [tool_calls] defaults to [[]]. *)
Record ChatMessage : Type := mkChatMessage {
  sender : string;
  content : string;
  tool_calls : list Dict
}.

(** [ChatMessage(sender=..., content=...)], the [tool_calls] default taken. *)
Definition ChatMessage_default (sender content : string) : ChatMessage :=
  mkChatMessage sender content [].

(** [class ChatRequest(BaseModel)]: [chat_history] defaults to [[]]. *)
Record ChatRequest : Type := mkChatRequest {
  message : string;
  chat_history : list ChatMessage
}.

(** [class ChatResponse(BaseModel)]. *)
Record ChatResponse : Type := mkChatResponse {
  response : string;
  response_chat_history : list ChatMessage
}.

(** ** Answer extraction ([chat_endpoint], the reverse scan) *)

(** The text returned when the scan finds no answer. *)
Definition thinking_placeholder : string :=
  "Thinking... (AI is processing tool output or waiting for more context.)".

(** Truth value of a list: [not msg.tool_calls] is [True] on the empty list. *)
Definition truthy {A : Type} (l : list A) : bool :=
  match l with
  | [] => false
  | _ :: _ => true
  end.

(** The [for msg in reversed(...)] loop over an already reversed list:
    [Some msg] when the loop leaves through the first [break] with
    [ai_response_message = msg], [None] when it leaves with
    [ai_response_message] still [None]. *)
Fixpoint scan_reversed (msgs : list BaseMessage) : option BaseMessage :=
  match msgs with
  | [] => None
  | msg :: rest =>
      match msg with
      | AIMessage _ tcs =>
          if negb (truthy tcs) then Some msg else scan_reversed rest
      | HumanMessage _ => None
      | ToolMessage _ _ => scan_reversed rest
      | OtherMessage _ => scan_reversed rest
      end
  end.

Definition message_content (msg : BaseMessage) : string :=
  match msg with
  | HumanMessage c => c
  | AIMessage c _ => c
  | ToolMessage c _ => c
  | OtherMessage c => c
  end.

(** [ai_response_content] after the [if ai_response_message: ... else: ...];
    a message object is always true. *)
Definition ai_response_content (final_messages : list BaseMessage) : string :=
  match scan_reversed (rev final_messages) with
  | Some msg => message_content msg
  | None => thinking_placeholder
  end.

(** Messages the scan steps over: tool results, assistant messages that still
    carry tool calls, and messages of a class no branch matches. *)
Definition passed_over (msg : BaseMessage) : bool :=
  match msg with
  | HumanMessage _ => false
  | AIMessage _ tcs => truthy tcs
  | ToolMessage _ _ => true
  | OtherMessage _ => true
  end.

(** [l.append(x)]. *)
Definition append {A : Type} (l : list A) (x : A) : list A := (l ++ [x])%list.

(** ** Tools, language model, process state *)

(** What the [@tool] decorator makes of a function: its name, its docstring
    and the function itself. *)
Record Tool : Type := mkTool {
  tool_name : string;
  tool_description : string;
  tool_func : string -> Result string
}.

(** [ChatGoogleGenerativeAI(model=..., google_api_key=..., temperature=...)]. *)
Record ChatGoogleGenerativeAI : Type := mkChatGoogleGenerativeAI {
  model : string;
  google_api_key : string;
  temperature : Z
}.

(** What [await app_runnable.ainvoke({"messages": conv})] gives: the list
    under ["messages"] of the final state, or an exception. *)
Definition Runnable : Type := list BaseMessage -> Result (list BaseMessage).

(** The process environment as [os.getenv] sees it ([None] when unset). *)
Record Environ : Type := mkEnviron {
  env_GOOGLE_API_KEY : option string;
  env_TAVILY_API_KEY : option string
}.

(** Truth value of what [os.getenv] returns: [None] and [""] are false. *)
Definition truthy_env (v : option string) : bool :=
  match v with
  | None => false
  | Some s => negb (String.eqb s "")
  end.

Definition env_value (v : option string) : string :=
  match v with
  | None => ""
  | Some s => s
  end.

(** The module-level state of the process, and two logs of what it did: the
    lines printed, and the conversations handed to the agent runtime. *)
Record Process : Type := mkProcess {
  tavily_search_enabled : bool;
  tools : list Tool;
  app_runnable : Runnable;
  stdout : list string;
  ainvoke_calls : list (list BaseMessage)
}.

Definition print (line : string) (p : Process) : Process :=
  mkProcess (tavily_search_enabled p) (tools p) (app_runnable p)
            (append (stdout p) line) (ainvoke_calls p).

(** [await app_runnable.ainvoke({"messages": conv})]: the call is logged and
    the runtime's result returned. *)
Definition ainvoke (conv : list BaseMessage) (p : Process)
  : Result (list BaseMessage) * Process :=
  (app_runnable p conv,
   mkProcess (tavily_search_enabled p) (tools p) (app_runnable p)
             (stdout p) (append (ainvoke_calls p) conv)).

(** How a call of the handler ends. *)
Inductive Outcome : Type :=
| Returns (r : ChatResponse)
| RaisesHTTPException (status_code : Z) (detail : string)
| Propagates (e : Exception).

(** ** HTTP layer (FastAPI) *)

Inductive ResponseBody : Type :=
| JSONChatResponse (r : ChatResponse)
| JSONDetail (detail : string)
| JSONValidationErrors
| PlainText (text : string).

Record HTTPResponse : Type := mkHTTPResponse {
  http_status : Z;
  http_body : ResponseBody
}.

(** pydantic validation of a value against [str], [Dict[str, Any]] and
    [List[...]]: the value converted, or [None] when it is of another type. *)
Definition validate_str (v : Any) : option string :=
  match v with
  | PyStr s => Some s
  | _ => None
  end.

Definition validate_dict (v : Any) : option Dict :=
  match v with
  | PyDict d => Some d
  | _ => None
  end.

Fixpoint validate_items {A : Type} (validate : Any -> option A) (items : list Any)
  : option (list A) :=
  match items with
  | [] => Some []
  | v :: rest =>
      match validate v, validate_items validate rest with
      | Some a, Some l => Some (a :: l)
      | _, _ => None
      end
  end.

Definition validate_list {A : Type} (validate : Any -> option A) (v : Any)
  : option (list A) :=
  match v with
  | PyList items => validate_items validate items
  | _ => None
  end.

(** A field with a default: the default when the key is absent. *)
Definition validate_optional {A : Type} (validate : Any -> option A)
  (default : A) (field : option Any) : option A :=
  match field with
  | None => Some default
  | Some v => validate v
  end.

(** A field without a default is required. *)
Definition validate_required {A : Type} (validate : Any -> option A)
  (field : option Any) : option A :=
  match field with
  | None => None
  | Some v => validate v
  end.

(** Validation against [ChatMessage]: [sender] and [content] are required,
    [tool_calls] has the default [[]]. *)
Definition validate_ChatMessage (v : Any) : option ChatMessage :=
  match v with
  | PyDict d =>
      match validate_required validate_str (dict_get "sender" d),
            validate_required validate_str (dict_get "content" d),
            validate_optional (validate_list validate_dict) [] (dict_get "tool_calls" d) with
      | Some s, Some c, Some tcs => Some (mkChatMessage s c tcs)
      | _, _, _ => None
      end
  | _ => None
  end.

(** Validation of a request body against [ChatRequest]: [message] is
    required, [chat_history] has the default [[]]. *)
Definition validate_ChatRequest (body : Any) : option ChatRequest :=
  match body with
  | PyDict d =>
      match validate_required validate_str (dict_get "message" d),
            validate_optional (validate_list validate_ChatMessage) [] (dict_get "chat_history" d) with
      | Some m, Some h => Some (mkChatRequest m h)
      | _, _ => None
      end
  | _ => None
  end.

(** The response FastAPI sends for each way the handler ends. *)
Definition respond (o : Outcome) : HTTPResponse :=
  match o with
  | Returns r => mkHTTPResponse 200 (JSONChatResponse r)
  | RaisesHTTPException status_code detail => mkHTTPResponse status_code (JSONDetail detail)
  | Propagates _ => mkHTTPResponse 500 (PlainText "Internal Server Error")
  end.

(** ** The program, over the libraries it calls *)

Section Backend.

(** The search provider: the client object, its constructor
    [TavilySearchResults(api_key=..., max_results=...)], its method
    [invoke], and [str] on what [invoke] returns. *)
Variable Tavily : Type.
Variable TavilySearchResults : string -> Z -> Result Tavily.
Variable tavily_invoke : Tavily -> Dict -> Result Any.
Variable str_results : Any -> string.

(** [create_react_agent(llm, tools)]. *)
Variable create_react_agent : ChatGoogleGenerativeAI -> list Tool -> Runnable.

(** The validation [AIMessage(content=..., tool_calls=...)] runs on the
    records it is given: [None] when it accepts them, the exception it
    raises otherwise.  ([HumanMessage(content=...)] is given a [str] only,
    which its class accepts.) *)
Variable AIMessage_rejects : list ToolCall -> option Exception.

(** A record as the constructed [AIMessage] holds it: the constructor
    rebuilds each record it accepts. *)
Variable AIMessage_record : Dict -> ToolCall.

(** The method [dict()] of a tool-call record. *)
Variable tc_dict : ToolCall -> Result Dict.

(** *** Tools *)

(** The body of the [try] in [tavily_search]. *)
Definition tavily_results (api_key query : string) : Result string :=
  tavily <- TavilySearchResults api_key 5 ;;
  results <- tavily_invoke tavily [("query", PyStr query)] ;;
  Ok (str_results results).

Definition tavily_search (api_key : string) : Tool :=
  mkTool "tavily_search"
    "Perform a web search using Tavily and return relevant snippets."
    (fun query =>
       try_except (tavily_results api_key query)
         (fun e => Ok ("Error performing Tavily search: " ++ exc_str e))).

Definition placeholder_search : Tool :=
  mkTool "placeholder_search"
    "A placeholder tool for web search. Tavily API key is not configured."
    (fun query =>
       Ok "Search functionality is currently unavailable (Tavily API key not set).").

(** *** Start of the process: the module body *)

Definition startup (env : Environ) : Result Process :=
  let GOOGLE_API_KEY := env_GOOGLE_API_KEY env in
  let TAVILY_API_KEY := env_TAVILY_API_KEY env in
  if negb (truthy_env GOOGLE_API_KEY) then
    Raise (mkException "ValueError" "GOOGLE_API_KEY not found in .env file.")
  else
    let '(enabled, out) :=
      if negb (truthy_env TAVILY_API_KEY) then
        (false,
         ["Warning: TAVILY_API_KEY not found in .env file. Tavily web search tool will not function."])
      else (true, []) in
    let llm := mkChatGoogleGenerativeAI "gemini-1.5-flash" (env_value GOOGLE_API_KEY) 0 in
    let tools :=
      if enabled then append [] (tavily_search (env_value TAVILY_API_KEY))
      else append [] placeholder_search in
    Ok (mkProcess enabled tools (create_react_agent llm tools) out []).

(** *** Inbound translation *)

(** [AIMessage(content=..., tool_calls=...)]. *)
Definition new_AIMessage (content : string) (tool_calls : list ToolCall)
  : Result BaseMessage :=
  match AIMessage_rejects tool_calls with
  | Some e => Raise e
  | None => Ok (AIMessage content (map AIMessage_record tool_calls))
  end.

(** The loop [for msg in request.chat_history] filling [history_messages]. *)
Fixpoint history_messages (chat_history : list ChatMessage)
  : Result (list BaseMessage) :=
  match chat_history with
  | [] => Ok []
  | msg :: rest =>
      if String.eqb (sender msg) "user" then
        later <- history_messages rest ;;
        Ok (HumanMessage (content msg) :: later)
      else if String.eqb (sender msg) "bot" then
        m <- new_AIMessage (content msg) (tool_calls msg) ;;
        later <- history_messages rest ;;
        Ok (m :: later)
      else history_messages rest
  end.

Definition full_chat_history (request : ChatRequest) : Result (list BaseMessage) :=
  let user_message_content := message request in
  history_messages <- history_messages (chat_history request) ;;
  Ok (history_messages ++ [HumanMessage user_message_content])%list.

(** *** Outbound translation *)

(** The loop [for msg in final_state["messages"]] filling
    [new_chat_history]. *)
Fixpoint new_chat_history (messages : list BaseMessage)
  : Result (list ChatMessage) :=
  match messages with
  | [] => Ok []
  | msg :: rest =>
      match msg with
      | HumanMessage c =>
          later <- new_chat_history rest ;;
          Ok (ChatMessage_default "user" c :: later)
      | AIMessage c tcs =>
          tool_calls_for_pydantic <-
            (if truthy tcs then comprehension tc_dict tcs else Ok []) ;;
          later <- new_chat_history rest ;;
          Ok (mkChatMessage "bot" c tool_calls_for_pydantic :: later)
      | ToolMessage c tool_call_id =>
          later <- new_chat_history rest ;;
          Ok (ChatMessage_default "bot"
                ("*(Tool Output for " ++ tool_call_id ++ "): " ++ c ++ "*") :: later)
      | OtherMessage _ => new_chat_history rest
      end
  end.

(** *** The handler *)

(** The body of the [try] once the runtime has answered. *)
Definition build_response (final_messages : list BaseMessage) : Result ChatResponse :=
  let ai_response_content := ai_response_content final_messages in
  new_chat_history <- new_chat_history final_messages ;;
  Ok (mkChatResponse ai_response_content new_chat_history).

Definition chat_endpoint (request : ChatRequest) (p : Process) : Outcome * Process :=
  match full_chat_history request with
  | Raise e => (Propagates e, p)
  | Ok full_chat_history =>
      let (final_state, p1) := ainvoke full_chat_history p in
      match final_messages <- final_state ;; build_response final_messages with
      | Ok r => (Returns r, p1)
      | Raise e =>
          (RaisesHTTPException 500 ("Internal server error: " ++ exc_str e),
           print ("Error during chat processing: " ++ exc_str e) p1)
      end
  end.

(** [POST /chat]: the body is validated against [ChatRequest] first; the
    handler runs only on a body that passes. *)
Definition post_chat (body : Any) (p : Process) : HTTPResponse * Process :=
  match validate_ChatRequest body with
  | None => (mkHTTPResponse 422 JSONValidationErrors, p)
  | Some request =>
      let (o, p') := chat_endpoint request p in
      (respond o, p')
  end.

(** The process serving a sequence of request bodies. *)
Fixpoint serve (bodies : list Any) (p : Process) : list HTTPResponse * Process :=
  match bodies with
  | [] => ([], p)
  | body :: rest =>
      let (r, p1) := post_chat body p in
      let (rs, p2) := serve rest p1 in
      (r :: rs, p2)
  end.

(** *** The translations as the specification words them *)

(** One wire turn, inbound: a "user" turn is one Human message, a "bot"
    turn one Assistant message holding the turn's records as [AIMessage]
    stores them, any other turn nothing. *)
Definition turn_toInternal (turn : ChatMessage) : list BaseMessage :=
  if String.eqb (sender turn) "user" then [HumanMessage (content turn)]
  else if String.eqb (sender turn) "bot" then
    [AIMessage (content turn) (map AIMessage_record (tool_calls turn))]
  else [].

(** The inbound translation in the specification's words: a "bot" turn is an
    Assistant message with the same records verbatim. *)
Definition turn_toInternal_verbatim (turn : ChatMessage) : list BaseMessage :=
  if String.eqb (sender turn) "user" then [HumanMessage (content turn)]
  else if String.eqb (sender turn) "bot" then
    [AIMessage (content turn) (tool_calls turn)]
  else [].

Definition toInternal_verbatim (turns : list ChatMessage) (newMessage : string)
  : list BaseMessage :=
  (flat_map turn_toInternal_verbatim turns ++ [HumanMessage newMessage])%list.

Definition toInternal (turns : list ChatMessage) (newMessage : string)
  : list BaseMessage :=
  (flat_map turn_toInternal turns ++ [HumanMessage newMessage])%list.

(** The records of every "bot" turn pass the validation of [AIMessage]. *)
Definition records_accepted (turns : list ChatMessage) : Prop :=
  Forall (fun turn => sender turn = "bot" ->
                      AIMessage_rejects (tool_calls turn) = None) turns.

(** One conversation message, outbound: a Human message is a "user" turn, an
    Assistant message a "bot" turn with the same text and each record
    serialized, a ToolResult a "bot" turn whose content names the call and
    quotes the output. *)
Inductive toWire_turn : BaseMessage -> ChatMessage -> Prop :=
| toWire_Human (c : string) :
    toWire_turn (HumanMessage c) (mkChatMessage "user" c [])
| toWire_Assistant (c : string) (tcs : list ToolCall) (ds : list Dict) :
    Forall2 (fun tc d => tc_dict tc = Ok d) tcs ds ->
    toWire_turn (AIMessage c tcs) (mkChatMessage "bot" c ds)
| toWire_ToolResult (output id : string) :
    toWire_turn (ToolMessage output id)
      (mkChatMessage "bot" ("*(Tool Output for " ++ id ++ "): " ++ output ++ "*") []).

(** The three message kinds of a conversation. *)
Definition conversation_message (msg : BaseMessage) : bool :=
  match msg with
  | OtherMessage _ => false
  | _ => true
  end.

(** Every record of every assistant message of [messages] serializes. *)
Definition records_serialize (messages : list BaseMessage) : Prop :=
  forall c tcs tc,
    In (AIMessage c tcs) messages -> In tc tcs -> exists d, tc_dict tc = Ok d.

(** What the round trip compares: the sender and the content of a turn. *)
Definition role_and_content (turn : ChatMessage) : string * string :=
  (sender turn, content turn).

(** The two senders the inbound translation recognizes. *)
Definition recognized_sender (turn : ChatMessage) : bool :=
  String.eqb (sender turn) "user" || String.eqb (sender turn) "bot".

(** A body without a [message] field: an object that has no such key, or a
    body that is no object at all. *)
Definition lacks_message (body : Any) : Prop :=
  match body with
  | PyDict d => dict_get "message" d = None
  | _ => True
  end.

(** ** Sample libraries, processes and requests *)

(** An [AIMessage] that accepts every record, and one that requires each
    record to have a name. *)
Definition accept_records : list ToolCall -> option Exception := fun _ => None.

Definition has_key (key : string) (d : Dict) : bool :=
  match dict_get key d with
  | Some _ => true
  | None => false
  end.

Definition name_required : Exception :=
  mkException "ValidationError" "tool_calls.0.name: Field required".

Definition require_name (tcs : list ToolCall) : option Exception :=
  if forallb (has_key "name") tcs then None else Some name_required.

(** An [AIMessage] that stores each record with the key [type] added, and
    one that stores it as given. *)
Definition typed_record : Dict -> ToolCall :=
  fun d => (d ++ [("type", PyStr "tool_call")])%list.

Definition same_record : Dict -> ToolCall := fun d => d.

(** A [dict()] that returns the record's mapping; and [tc.dict()] on a record
    that is a plain [dict], as the records of a message are: a [dict] has no
    attribute [dict]. *)
Definition copy_record : ToolCall -> Result Dict := fun tc => Ok tc.

Definition no_dict_method : Exception :=
  mkException "AttributeError" "'dict' object has no attribute 'dict'".

Definition missing_dict : ToolCall -> Result Dict := fun _ => Raise no_dict_method.

(** A runtime that answers at once, one that calls its first tool, and one
    that fails. *)
Definition greeting_agent : ChatGoogleGenerativeAI -> list Tool -> Runnable :=
  fun _ _ conv => Ok (conv ++ [AIMessage "Hello!" []])%list.

Definition search_call : ToolCall :=
  [("name", PyStr "search"); ("args", PyDict [("query", PyStr "rocq")]);
   ("id", PyStr "call_1")].

Definition searching_agent : ChatGoogleGenerativeAI -> list Tool -> Runnable :=
  fun _ tools conv =>
    match tools with
    | [] => Ok (conv ++ [AIMessage "No tool." []])%list
    | t :: _ =>
        out <- tool_func t "rocq" ;;
        Ok (conv ++ [AIMessage "" [search_call]; ToolMessage out "call_1";
                     AIMessage out []])%list
    end.

(** A runtime that appends a tool result and an answer, without a record of
    the call. *)
Definition reporting_agent : ChatGoogleGenerativeAI -> list Tool -> Runnable :=
  fun _ _ conv =>
    Ok (conv ++ [ToolMessage "sunny" "call_0"; AIMessage "Sunny again." []])%list.

Definition model_timeout : Exception := mkException "TimeoutError" "model timed out".

Definition failing_agent : ChatGoogleGenerativeAI -> list Tool -> Runnable :=
  fun _ _ _ => Raise model_timeout.

(** A search provider that cannot be reached. *)
Definition connection_refused : Exception :=
  mkException "ConnectionError" "connection refused".

Definition unreachable_invoke : unit -> Dict -> Result Any :=
  fun _ _ => Raise connection_refused.

(** Environments with and without the search credential. *)
Definition env_without_search : Environ := mkEnviron (Some "g-key") None.
Definition env_with_search : Environ := mkEnviron (Some "g-key") (Some "t-key").

(** A process whose runtime is [agent], as [startup] leaves it when the
    search credential is absent. *)
Definition stub_process (agent : ChatGoogleGenerativeAI -> list Tool -> Runnable)
  : Process :=
  mkProcess false [placeholder_search]
    (agent (mkChatGoogleGenerativeAI "gemini-1.5-flash" "g-key" 0) [placeholder_search])
    ["Warning: TAVILY_API_KEY not found in .env file. Tavily web search tool will not function."]
    [].

(** Requests: three turns of an unknown sender; a "user" turn that carries a
    record; a "bot" turn whose record has no name; a plain history. *)
Definition system_turn : ChatMessage := mkChatMessage "system" "Be brief." [].

Definition request_unknown_senders : ChatRequest :=
  mkChatRequest "hi" [system_turn; system_turn; system_turn].

Definition request_user_record : ChatRequest :=
  mkChatRequest "hi" [mkChatMessage "user" "look this up" [search_call]].

Definition request_nameless_record : ChatRequest :=
  mkChatRequest "hi" [mkChatMessage "bot" "" [[]]].

Definition request_bot_record : ChatRequest :=
  mkChatRequest "hi" [mkChatMessage "bot" "Searching." [search_call]].

Definition request_plain : ChatRequest :=
  mkChatRequest "and tomorrow?"
    [mkChatMessage "user" "weather?" []; mkChatMessage "bot" "Sunny." []].

(** Request bodies: one without [message], one complete. *)
Definition body_without_message : Any :=
  PyDict [("chat_history", PyList [])].

Definition body_hello : Any :=
  PyDict [("message", PyStr "hello")].

(** The search client of the samples: built without error, its invocation
    refused; [str] of any result. *)
Definition ready_client : string -> Z -> Result unit := fun _ _ => Ok tt.

Definition str_any : Any -> string := fun _ => "[]".

(** The text the stub returns. *)
Definition unavailable_text : string :=
  "Search functionality is currently unavailable (Tavily API key not set).".

(** The response expected from [searching_agent] over the stub for
    [request_plain]. *)
Definition searching_response : ChatResponse :=
  mkChatResponse unavailable_text
    [mkChatMessage "user" "weather?" [];
     mkChatMessage "bot" "Sunny." [];
     mkChatMessage "user" "and tomorrow?" [];
     mkChatMessage "bot" "" [search_call];
     mkChatMessage "bot"
       ("*(Tool Output for call_1): " ++ unavailable_text ++ "*") [];
     mkChatMessage "bot" unavailable_text []].

(** A turn with its records removed unless its sender is "bot". *)
Definition drop_user_records (turn : ChatMessage) : ChatMessage :=
  if String.eqb (sender turn) "bot" then turn
  else mkChatMessage (sender turn) (content turn) [].

(** The messages the inbound translation creates. *)
Definition human_or_assistant (msg : BaseMessage) : Prop :=
  match msg with
  | HumanMessage _ | AIMessage _ _ => True
  | _ => False
  end.

(** A body whose history holds a turn without [sender]. *)
Definition body_turn_without_sender : Any :=
  PyDict [("message", PyStr "hi");
          ("chat_history",
           PyList [PyDict [("sender", PyStr "user"); ("content", PyStr "weather?")];
                   PyDict [("content", PyStr "Sunny.")]])].

(** The line printed at start when the search credential is absent. *)
Definition tavily_warning : string :=
  "Warning: TAVILY_API_KEY not found in .env file. Tavily web search tool will not function.".

(** A search client that returns one result, and [str] of it. *)
Definition one_result_invoke : unit -> Dict -> Result Any :=
  fun _ args =>
    match dict_get "query" args with
    | Some q => Ok (PyList [PyDict [("content", q)]])
    | None => Raise (mkException "KeyError" "'query'")
    end.

Definition str_first_content (results : Any) : string :=
  match results with
  | PyList (PyDict [(_, PyStr q)] :: _) => "[{'content': '" ++ q ++ "'}]"
  | _ => "[]"
  end.

(** The final conversation and the response of [greeting_agent],
    [reporting_agent] and [searching_agent] for [request_plain]. *)
Definition plain_conv : list BaseMessage :=
  [HumanMessage "weather?"; AIMessage "Sunny." []; HumanMessage "and tomorrow?"].

Definition greeting_response : ChatResponse :=
  mkChatResponse "Hello!"
    [mkChatMessage "user" "weather?" [];
     mkChatMessage "bot" "Sunny." [];
     mkChatMessage "user" "and tomorrow?" [];
     mkChatMessage "bot" "Hello!" []].

Definition reporting_final : list BaseMessage :=
  (plain_conv ++ [ToolMessage "sunny" "call_0"; AIMessage "Sunny again." []])%list.

Definition reporting_response : ChatResponse :=
  mkChatResponse "Sunny again."
    [mkChatMessage "user" "weather?" [];
     mkChatMessage "bot" "Sunny." [];
     mkChatMessage "user" "and tomorrow?" [];
     mkChatMessage "bot" "*(Tool Output for call_0): sunny*" [];
     mkChatMessage "bot" "Sunny again." []].

Definition searching_final : list BaseMessage :=
  (plain_conv ++ [AIMessage "" [search_call]; ToolMessage unavailable_text "call_1";
                  AIMessage unavailable_text []])%list.

(** * Properties *)

(** ** Answer extraction *)

Lemma scan_reversed_passed_over (skipped rest : list BaseMessage) :
  Forall (fun m => passed_over m = true) skipped ->
  scan_reversed (skipped ++ rest) = scan_reversed rest.
Proof.
  induction 1 as [| m skipped Hm _ IH]; [reflexivity |].
  destruct m as [c | c tcs | c id | c]; simpl in *; try discriminate; auto.
  destruct tcs; [discriminate | exact IH].
Qed.

Lemma ai_response_content_split (pre suf : list BaseMessage) (m : BaseMessage) :
  Forall (fun m => passed_over m = true) suf ->
  scan_reversed (rev (pre ++ m :: suf)) = scan_reversed (m :: rev pre).
Proof.
  intros Hsuf.
  rewrite rev_app_distr. simpl rev. rewrite <- app_assoc. simpl app.
  apply scan_reversed_passed_over, Forall_rev, Hsuf.
Qed.

(** C1. The answer is the content of the last assistant message without
    tool calls, provided only tool results (and other messages the scan
    steps over) follow it; when a human message is reached first, or no
    message qualifies, the answer is the placeholder, which is not the
    empty string.  The two conversations of the specification are
    instances. *)
Theorem C1_answer_extraction (pre suf : list BaseMessage) (text : string) :
  Forall (fun m => passed_over m = true) suf ->
  ai_response_content (pre ++ AIMessage text [] :: suf) = text
  /\ ai_response_content (pre ++ HumanMessage text :: suf) = thinking_placeholder
  /\ ai_response_content suf = thinking_placeholder
  /\ (forall out id, passed_over (ToolMessage out id) = true)
  /\ (forall h out id,
        ai_response_content
          (pre ++ [HumanMessage h; ToolMessage out id; AIMessage "X" []]) = "X")
  /\ (forall h call1,
        ai_response_content (pre ++ [HumanMessage h; AIMessage "" [call1]])
        = thinking_placeholder)
  /\ thinking_placeholder <> "".
Proof.
  intros Hsuf. unfold ai_response_content.
  repeat split.
  - now rewrite ai_response_content_split.
  - now rewrite ai_response_content_split.
  - rewrite <- (app_nil_r (rev suf)).
    rewrite scan_reversed_passed_over; [reflexivity | now apply Forall_rev].
  - intros h out id.
    replace (pre ++ [HumanMessage h; ToolMessage out id; AIMessage "X" []])%list
      with ((pre ++ [HumanMessage h; ToolMessage out id]) ++ [AIMessage "X" []])%list
      by (rewrite <- app_assoc; reflexivity).
    now rewrite ai_response_content_split by constructor.
  - intros h call1.
    change (pre ++ [HumanMessage h; AIMessage "" [call1]])%list
      with (pre ++ HumanMessage h :: [AIMessage "" [call1]])%list.
    rewrite ai_response_content_split; [reflexivity |].
    repeat constructor.
  - discriminate.
Qed.

(** ** Inbound translation *)

Lemma bind_Ok {A B : Type} (m : Result A) (k : A -> Result B) (b : B) :
  bind m k = Ok b <-> exists a, m = Ok a /\ k a = Ok b.
Proof.
  destruct m as [a | e]; simpl; split.
  - intros H. now exists a.
  - now intros [a' [[= <-] H]].
  - discriminate.
  - now intros [a' [[=] _]].
Qed.

Lemma history_messages_spec (turns : list ChatMessage) (msgs : list BaseMessage) :
  history_messages turns = Ok msgs <->
  records_accepted turns /\ msgs = flat_map turn_toInternal turns.
Proof.
  unfold records_accepted.
  revert msgs. induction turns as [| turn rest IH]; intros msgs; simpl.
  - split.
    + intros [= <-]. split; [constructor | reflexivity].
    + now intros [_ ->].
  - unfold turn_toInternal.
    destruct (String.eqb_spec (sender turn) "user") as [Hu | Hu].
    + rewrite bind_Ok. split.
      * intros [later [Hl [= <-]]]. apply IH in Hl as [Hacc ->].
        split; [| reflexivity].
        constructor; [| exact Hacc]. rewrite Hu. discriminate.
      * intros [Hacc ->]. inversion Hacc; subst.
        exists (flat_map turn_toInternal rest). split; [| reflexivity].
        apply IH. now split.
    + destruct (String.eqb_spec (sender turn) "bot") as [Hb | Hb].
      * unfold new_AIMessage. rewrite bind_Ok. split.
        -- intros [m [Hm Hrest]]. apply bind_Ok in Hrest as [later [Hl [= <-]]].
           apply IH in Hl as [Hacc ->].
           destruct (AIMessage_rejects (tool_calls turn)) eqn:Hrej; [discriminate |].
           injection Hm as <-. split; [| reflexivity].
           constructor; [intros _; exact Hrej | exact Hacc].
        -- intros [Hacc ->]. inversion Hacc as [| ? ? Hturn Hrest]; subst.
           rewrite (Hturn Hb).
           exists (AIMessage (content turn) (map AIMessage_record (tool_calls turn))).
           split; [reflexivity |].
           apply bind_Ok. exists (flat_map turn_toInternal rest).
           split; [| reflexivity]. apply IH. now split.
      * rewrite IH. split.
        -- intros [Hacc ->]. split; [| reflexivity].
           constructor; [intros Hs; contradiction | exact Hacc].
        -- intros [Hacc ->]. inversion Hacc; subst. now split.
Qed.

Lemma full_chat_history_spec (request : ChatRequest) (conv : list BaseMessage) :
  full_chat_history request = Ok conv <->
  records_accepted (chat_history request)
  /\ conv = toInternal (chat_history request) (message request).
Proof.
  unfold full_chat_history, toInternal. rewrite bind_Ok. split.
  - intros [msgs [Hm [= <-]]]. apply history_messages_spec in Hm as [Hacc ->].
    now split.
  - intros [Hacc ->]. exists (flat_map turn_toInternal (chat_history request)).
    split; [| reflexivity]. apply history_messages_spec. now split.
Qed.

Lemma chat_endpoint_ainvoke_calls (request : ChatRequest) (p : Process)
  (conv : list BaseMessage) :
  full_chat_history request = Ok conv ->
  ainvoke_calls (snd (chat_endpoint request p)) = append (ainvoke_calls p) conv.
Proof.
  intros Hconv. unfold chat_endpoint. rewrite Hconv. unfold ainvoke.
  destruct (final_messages <- app_runnable p conv ;; build_response final_messages);
    reflexivity.
Qed.

(** C2 (amended). A request yields a conversation exactly when [AIMessage]
    accepts the records of its "bot" turns; the conversation is then, turn by
    turn, one Human message per "user" turn (same content), one Assistant
    message per "bot" turn (same content, holding the turn's records as the
    constructor stores them, as many and in the same order), nothing for any
    other sender, and a last Human message holding the request's [message];
    it is what the runtime is invoked with.  With an empty history and
    "hello" the runtime receives exactly one Human message "hello". *)
Theorem C2_inbound_translation (request : ChatRequest) :
  (forall c tcs, turn_toInternal (mkChatMessage "user" c tcs) = [HumanMessage c])
  /\ (forall c tcs,
        turn_toInternal (mkChatMessage "bot" c tcs)
        = [AIMessage c (map AIMessage_record tcs)])
  /\ (forall turn, sender turn <> "user" -> sender turn <> "bot" ->
                   turn_toInternal turn = [])
  /\ (forall conv,
        full_chat_history request = Ok conv <->
        records_accepted (chat_history request)
        /\ conv = toInternal (chat_history request) (message request))
  /\ (forall p conv,
        full_chat_history request = Ok conv ->
        ainvoke_calls (snd (chat_endpoint request p)) = append (ainvoke_calls p) conv)
  /\ (forall p,
        ainvoke_calls (snd (chat_endpoint (mkChatRequest "hello" []) p))
        = append (ainvoke_calls p) [HumanMessage "hello"]).
Proof.
  split; [reflexivity |]. split; [reflexivity |].
  split; [| split; [| split]].
  - intros turn Hu Hb. unfold turn_toInternal.
    destruct (String.eqb_spec (sender turn) "user"); [contradiction |].
    destruct (String.eqb_spec (sender turn) "bot"); [contradiction | reflexivity].
  - intros conv. apply full_chat_history_spec.
  - intros p conv. apply chat_endpoint_ainvoke_calls.
  - intros p. now apply chat_endpoint_ainvoke_calls.
Qed.

(** ** Outbound translation *)

Lemma comprehension_spec {A B : Type} (f : A -> Result B) (xs : list A) (ys : list B) :
  comprehension f xs = Ok ys <-> Forall2 (fun x y => f x = Ok y) xs ys.
Proof.
  revert ys. induction xs as [| x xs IH]; intros ys; simpl.
  - split.
    + intros [= <-]. constructor.
    + intros H. now inversion H.
  - rewrite bind_Ok. split.
    + intros [y [Hy Hrest]]. apply bind_Ok in Hrest as [ys' [Hys [= <-]]].
      constructor; [exact Hy | now apply IH].
    + intros H. inversion H as [| ? y ? ys' Hy Hys]; subst.
      exists y. split; [exact Hy |]. apply bind_Ok.
      exists ys'. split; [now apply IH | reflexivity].
Qed.

Lemma tool_calls_for_pydantic_spec (tcs : list ToolCall) :
  (if truthy tcs then comprehension tc_dict tcs else Ok [])
  = comprehension tc_dict tcs.
Proof. now destruct tcs. Qed.

Lemma new_chat_history_spec (messages : list BaseMessage) (turns : list ChatMessage) :
  new_chat_history messages = Ok turns <->
  Forall2 toWire_turn (filter conversation_message messages) turns.
Proof.
  revert turns.
  induction messages as [| msg rest IH]; intros turns; simpl.
  - split.
    + intros [= <-]. constructor.
    + intros H. now inversion H.
  - destruct msg as [c | c tcs | c id | c]; simpl.
    + rewrite bind_Ok. split.
      * intros [later [Hl [= <-]]]. constructor; [constructor | now apply IH].
      * intros H. inversion H as [| ? t ? later Ht Hl]; subst. inversion Ht; subst.
        exists later. split; [now apply IH | reflexivity].
    + rewrite tool_calls_for_pydantic_spec, bind_Ok. split.
      * intros [ds [Hds Hrest]]. apply bind_Ok in Hrest as [later [Hl [= <-]]].
        constructor; [| now apply IH].
        constructor. now apply comprehension_spec.
      * intros H. inversion H as [| ? t ? later Ht Hl]; subst. inversion Ht; subst.
        exists ds. split; [now apply comprehension_spec |].
        apply bind_Ok. exists later. split; [now apply IH | reflexivity].
    + rewrite bind_Ok. split.
      * intros [later [Hl [= <-]]]. constructor; [constructor | now apply IH].
      * intros H. inversion H as [| ? t ? later Ht Hl]; subst. inversion Ht; subst.
        exists later. split; [now apply IH | reflexivity].
    + apply IH.
Qed.

Lemma toWire_turn_sender (msg : BaseMessage) (turn : ChatMessage) :
  toWire_turn msg turn -> sender turn = "user" \/ sender turn = "bot".
Proof. destruct 1; simpl; auto. Qed.

Lemma comprehension_total {A B : Type} (f : A -> Result B) (xs : list A) :
  (forall x, In x xs -> exists y, f x = Ok y) ->
  exists ys, comprehension f xs = Ok ys.
Proof.
  induction xs as [| x xs IH]; intros Hall; simpl.
  - now exists [].
  - destruct (Hall x (or_introl eq_refl)) as [y Hy].
    destruct IH as [ys Hys]; [intros x' Hx'; apply Hall; now right |].
    exists (y :: ys). now rewrite Hy, Hys.
Qed.

Lemma new_chat_history_total (messages : list BaseMessage) :
  records_serialize messages -> exists turns, new_chat_history messages = Ok turns.
Proof.
  unfold records_serialize.
  induction messages as [| msg rest IH]; intros Hall; simpl.
  - now exists [].
  - destruct IH as [later Hl].
    { intros c tcs tc Hin. apply (Hall c tcs tc). now right. }
    rewrite Hl.
    destruct msg as [c | c tcs | c id | c]; simpl; eauto.
    rewrite tool_calls_for_pydantic_spec.
    destruct (comprehension_total tc_dict tcs) as [ds Hds].
    { intros tc Htc. apply (Hall c tcs tc); [now left | exact Htc]. }
    rewrite Hds. simpl. eauto.
Qed.

(** ** The handler *)

(** A call that returns went through every step of the handler. *)
Lemma chat_endpoint_Returns (request : ChatRequest) (p p' : Process) (r : ChatResponse) :
  chat_endpoint request p = (Returns r, p') <->
  exists conv final_messages,
    full_chat_history request = Ok conv
    /\ app_runnable p conv = Ok final_messages
    /\ new_chat_history final_messages = Ok (response_chat_history r)
    /\ response r = ai_response_content final_messages
    /\ p' = snd (ainvoke conv p).
Proof.
  unfold chat_endpoint, build_response. split.
  - destruct (full_chat_history request) as [conv | e]; [| discriminate].
    simpl.
    destruct (app_runnable p conv) as [final_messages | e] eqn:Hrun;
      simpl; [| discriminate].
    destruct (new_chat_history final_messages) as [turns | e] eqn:Hnew;
      simpl; [| discriminate].
    intros [= <- <-]. exists conv, final_messages. simpl. repeat split; assumption.
  - intros (conv & final_messages & -> & Hrun & Hnew & Hresp & ->). simpl.
    rewrite Hrun. simpl. rewrite Hnew. simpl.
    destruct r as [resp hist]. simpl in *. now subst.
Qed.

(** ** Tool calls on the wire *)

Lemma toWire_turn_tool_calls (msg : BaseMessage) (turn : ChatMessage) :
  toWire_turn msg turn ->
  match msg with
  | AIMessage _ _ => True
  | _ => tool_calls turn = []
  end
  /\ (sender turn = "user" -> tool_calls turn = []).
Proof. destruct 1; simpl; split; auto; discriminate. Qed.

(** C10. In a response the handler returns, the transcript has, in order,
    one turn per Human, Assistant and ToolResult message of the conversation
    the runtime returned: the turn of a Human message and the turn of a
    ToolResult have an empty [tool_calls]; the turn of an Assistant message
    has as many records as the message; and every turn whose sender is "user"
    has an empty [tool_calls].  Only a turn built from an Assistant message
    that carries tool calls can hold records. *)
Theorem C10_tool_calls_only_on_assistant_turns
  (request : ChatRequest) (p p' : Process) (r : ChatResponse)
  (conv final_messages : list BaseMessage) :
  full_chat_history request = Ok conv ->
  app_runnable p conv = Ok final_messages ->
  chat_endpoint request p = (Returns r, p') ->
  Forall2 (fun msg turn =>
             match msg with
             | HumanMessage c => turn = mkChatMessage "user" c []
             | AIMessage c tcs =>
                 sender turn = "bot" /\ content turn = c
                 /\ List.length (tool_calls turn) = List.length tcs
             | ToolMessage output id =>
                 turn = mkChatMessage "bot"
                          ("*(Tool Output for " ++ id ++ "): " ++ output ++ "*") []
             | OtherMessage _ => False
             end)
          (filter conversation_message final_messages)
          (response_chat_history r)
  /\ Forall (fun turn => sender turn = "user" -> tool_calls turn = [])
            (response_chat_history r)
  /\ Forall (fun turn => tool_calls turn <> [] ->
                         exists c tcs,
                           In (AIMessage c tcs) final_messages /\ tcs <> []
                           /\ sender turn = "bot" /\ content turn = c)
            (response_chat_history r).
Proof.
  intros Hconv Hrun H. apply chat_endpoint_Returns in H
    as (conv' & final' & Hconv' & Hrun' & Hnew & _ & _).
  rewrite Hconv in Hconv'. injection Hconv' as <-.
  rewrite Hrun in Hrun'. injection Hrun' as <-.
  apply new_chat_history_spec in Hnew.
  assert (Hsub : forall m, In m (filter conversation_message final_messages) ->
                           In m final_messages)
    by (intros m Hm; now apply filter_In in Hm).
  revert Hsub Hnew.
  generalize (filter conversation_message final_messages) (response_chat_history r).
  intros msgs turns Hsub Hwire.
  induction Hwire as [| m t ms ts Hmt _ IH].
  - repeat split; constructor.
  - destruct IH as (IH1 & IH2 & IH3); [intros m' Hm'; apply Hsub; now right |].
    assert (Hm : In m final_messages) by (apply Hsub; now left).
    destruct Hmt as [c | c tcs ds Hds | output id].
    + split; [| split]; constructor; auto.
      intros Hne. now elim Hne.
    + apply Forall2_length in Hds.
      split; [| split]; constructor; auto; simpl.
      * discriminate.
      * intros Hne. exists c, tcs. repeat split; [exact Hm |].
        intros ->. destruct ds; [now elim Hne | discriminate Hds].
    + split; [| split]; constructor; auto.
      intros Hne. now elim Hne.
Qed.

(** ** The search tools *)

Lemma tavily_results_Raise (api_key query : string) (e : Exception) :
  tavily_results api_key query = Raise e <->
  TavilySearchResults api_key 5 = Raise e
  \/ exists tavily,
       TavilySearchResults api_key 5 = Ok tavily
       /\ tavily_invoke tavily [("query", PyStr query)] = Raise e.
Proof.
  unfold tavily_results.
  destruct (TavilySearchResults api_key 5) as [tavily | e0]; simpl.
  - destruct (tavily_invoke tavily [("query", PyStr query)]) as [res | e1] eqn:Hinv;
      simpl; split.
    + discriminate.
    + intros [[=] | [t [[= <-] H]]]. rewrite Hinv in H. discriminate.
    + intros [= <-]. right. now exists tavily.
    + intros [[=] | [t [[= <-] H]]]. rewrite Hinv in H. now injection H as <-.
  - split.
    + intros [= <-]. now left.
    + intros [[= <-] | [t [[=] _]]]. reflexivity.
Qed.

Lemma tavily_search_returns (api_key query : string) :
  exists text, tool_func (tavily_search api_key) query = Ok text.
Proof.
  simpl. destruct (tavily_results api_key query) as [text | e]; simpl; eauto.
Qed.

(** C6. When building the search client or invoking it raises [e], the
    search tool returns the text "Error performing Tavily search: " followed
    by [str(e)], which starts with "Error performing Tavily search:"; for no
    query does the tool raise. *)
Theorem C6_search_failure_is_reported_as_text
  (api_key query : string) (e : Exception) :
  (TavilySearchResults api_key 5 = Raise e
   \/ exists tavily,
        TavilySearchResults api_key 5 = Ok tavily
        /\ tavily_invoke tavily [("query", PyStr query)] = Raise e) ->
  tool_func (tavily_search api_key) query
  = Ok ("Error performing Tavily search: " ++ exc_str e)
  /\ String.prefix "Error performing Tavily search:"
       ("Error performing Tavily search: " ++ exc_str e) = true
  /\ (forall q e', tool_func (tavily_search api_key) q <> Raise e')
  /\ (forall q, exists text, tool_func (tavily_search api_key) q = Ok text).
Proof.
  intros Hraise. apply tavily_results_Raise in Hraise.
  split; [| split; [| split]].
  - simpl. now rewrite Hraise.
  - reflexivity.
  - intros q e' H. destruct (tavily_search_returns api_key q) as [text Ht].
    rewrite Ht in H. discriminate.
  - intros q. apply tavily_search_returns.
Qed.

(** ** The process after start *)

Lemma chat_endpoint_process (request : ChatRequest) (p : Process) :
  tavily_search_enabled (snd (chat_endpoint request p)) = tavily_search_enabled p
  /\ tools (snd (chat_endpoint request p)) = tools p
  /\ app_runnable (snd (chat_endpoint request p)) = app_runnable p.
Proof.
  unfold chat_endpoint.
  destruct (full_chat_history request) as [conv | e]; [| now repeat split].
  simpl.
  destruct (final_messages <- app_runnable p conv ;; build_response final_messages);
    now repeat split.
Qed.

Lemma post_chat_process (body : Any) (p : Process) :
  tavily_search_enabled (snd (post_chat body p)) = tavily_search_enabled p
  /\ tools (snd (post_chat body p)) = tools p
  /\ app_runnable (snd (post_chat body p)) = app_runnable p.
Proof.
  unfold post_chat.
  destruct (validate_ChatRequest body) as [request |]; [| now repeat split].
  pose proof (chat_endpoint_process request p) as H.
  destruct (chat_endpoint request p) as [o p']. exact H.
Qed.

Lemma serve_process (bodies : list Any) (p : Process) :
  tavily_search_enabled (snd (serve bodies p)) = tavily_search_enabled p
  /\ tools (snd (serve bodies p)) = tools p
  /\ app_runnable (snd (serve bodies p)) = app_runnable p.
Proof.
  revert p. induction bodies as [| body rest IH]; intros p; simpl.
  - now repeat split.
  - pose proof (post_chat_process body p) as (He & Ht & Hr).
    destruct (post_chat body p) as [r p1]. simpl in *.
    specialize (IH p1). destruct (serve rest p1) as [rs p2]. simpl in *.
    destruct IH as (He' & Ht' & Hr').
    repeat split; congruence.
Qed.

(** C7. Started with the model credential and without the search credential
    (unset or empty), the process holds the stub as its only tool and builds
    the runtime over it; the stub returns the text "Search functionality is
    currently unavailable (Tavily API key not set)." for every query; and
    serving requests changes neither the flag, the tool list nor the
    runtime. *)
Theorem C7_stub_when_credential_absent (env : Environ) :
  truthy_env (env_GOOGLE_API_KEY env) = true ->
  truthy_env (env_TAVILY_API_KEY env) = false ->
  exists p,
    startup env = Ok p
    /\ tavily_search_enabled p = false
    /\ tools p = [placeholder_search]
    /\ app_runnable p
       = create_react_agent
           (mkChatGoogleGenerativeAI "gemini-1.5-flash"
              (env_value (env_GOOGLE_API_KEY env)) 0)
           [placeholder_search]
    /\ (forall query,
          tool_func placeholder_search query
          = Ok "Search functionality is currently unavailable (Tavily API key not set).")
    /\ (forall bodies,
          tavily_search_enabled (snd (serve bodies p)) = false
          /\ tools (snd (serve bodies p)) = [placeholder_search]
          /\ app_runnable (snd (serve bodies p)) = app_runnable p).
Proof.
  intros Hg Ht. unfold startup. rewrite Hg, Ht. simpl.
  eexists. split; [reflexivity |]. simpl.
  split; [reflexivity |]. split; [reflexivity |]. split; [reflexivity |].
  split; [reflexivity |].
  intros bodies.
  match goal with
  | |- context [serve bodies ?p] => pose proof (serve_process bodies p) as H
  end.
  exact H.
Qed.

(** ** Request validation *)

Lemma validate_ChatRequest_lacks_message (body : Any) :
  lacks_message body -> validate_ChatRequest body = None.
Proof.
  destruct body as [| b | z | s | items | d]; simpl; try reflexivity.
  now intros ->.
Qed.

(** C9. A body without the [message] field is answered with status 422, a
    client error and not 500; the process is left as it was: nothing was
    printed and the runtime was not invoked, the handler did not run. *)
Theorem C9_missing_message_is_rejected (body : Any) (p : Process) :
  lacks_message body ->
  post_chat body p = (mkHTTPResponse 422 JSONValidationErrors, p)
  /\ (400 <= http_status (fst (post_chat body p)) < 500)%Z
  /\ http_status (fst (post_chat body p)) <> 500%Z
  /\ ainvoke_calls (snd (post_chat body p)) = ainvoke_calls p
  /\ stdout (snd (post_chat body p)) = stdout p.
Proof.
  intros Hlacks. unfold post_chat.
  rewrite (validate_ChatRequest_lacks_message body Hlacks). simpl.
  repeat split; try reflexivity; try lia; discriminate.
Qed.

(** ** Inbound followed by outbound *)

Lemma new_chat_history_app (front back : list BaseMessage) (turns : list ChatMessage) :
  new_chat_history (front ++ back) = Ok turns <->
  exists ts1 ts2,
    new_chat_history front = Ok ts1
    /\ new_chat_history back = Ok ts2
    /\ turns = (ts1 ++ ts2)%list.
Proof.
  rewrite new_chat_history_spec, filter_app. split.
  - intros H. apply Forall2_app_inv_l in H as (ts1 & ts2 & H1 & H2 & ->).
    exists ts1, ts2. rewrite !new_chat_history_spec. auto.
  - intros (ts1 & ts2 & H1 & H2 & ->).
    apply Forall2_app; now apply new_chat_history_spec.
Qed.

(** The turns translated back from the history part of the conversation. *)
Lemma history_round_trip (turns : list ChatMessage) (back : list ChatMessage) :
  new_chat_history (flat_map turn_toInternal turns) = Ok back ->
  map role_and_content back
  = map role_and_content (filter recognized_sender turns).
Proof.
  revert back. induction turns as [| turn rest IH]; intros back; simpl.
  - now intros [= <-].
  - intros H. apply new_chat_history_app in H as (ts1 & ts2 & H1 & H2 & ->).
    rewrite map_app, (IH ts2 H2).
    unfold turn_toInternal, recognized_sender in *.
    destruct (String.eqb_spec (sender turn) "user") as [Hu | Hu]; simpl in *.
    + injection H1 as <-. simpl. unfold role_and_content at 1. simpl.
      now rewrite <- Hu.
    + destruct (String.eqb_spec (sender turn) "bot") as [Hb | Hb]; simpl in *.
      * rewrite tool_calls_for_pydantic_spec in H1.
        destruct (comprehension tc_dict (map AIMessage_record (tool_calls turn)));
          [| discriminate].
        injection H1 as <-. simpl. unfold role_and_content at 1. simpl.
        now rewrite <- Hb.
      * now injection H1 as <-.
Qed.

(** C8 (amended). A wire conversation whose "bot" turns carry records that
    [AIMessage] accepts and that, as stored, serialize, translated to the
    internal form and back gives, for the turns whose sender is "user" or
    "bot" and for the new message, turns with the same sender and the same
    content, in the same order; ToolResult turns do not arise, as the inbound
    translation makes none. *)
Theorem C8_round_trip (turns : list ChatMessage) (newMessage : string) :
  records_accepted turns ->
  records_serialize (toInternal turns newMessage) ->
  exists back,
    (conv <- full_chat_history (mkChatRequest newMessage turns) ;;
     new_chat_history conv) = Ok back
    /\ map role_and_content back
       = (map role_and_content (filter recognized_sender turns)
            ++ [("user", newMessage)])%list
    /\ Forall (fun m => match m with ToolMessage _ _ => False | _ => True end)
              (toInternal turns newMessage).
Proof.
  intros Hacc Hser.
  assert (Hconv : full_chat_history (mkChatRequest newMessage turns)
                  = Ok (toInternal turns newMessage))
    by (apply full_chat_history_spec; now split).
  destruct (new_chat_history_total _ Hser) as [back Hback].
  exists back. rewrite Hconv. simpl. split; [exact Hback |]. split.
  - unfold toInternal in Hback.
    apply new_chat_history_app in Hback as (ts1 & ts2 & H1 & H2 & ->).
    rewrite map_app, (history_round_trip turns ts1 H1).
    simpl in H2. now injection H2 as <-.
  - unfold toInternal. apply Forall_app. split; [| now repeat constructor].
    apply Forall_forall. intros m Hin. apply in_flat_map in Hin as [turn [_ Hin]].
    unfold turn_toInternal in Hin.
    destruct (String.eqb (sender turn) "user");
      [destruct Hin as [<- | []]; exact I |].
    destruct (String.eqb (sender turn) "bot");
      [destruct Hin as [<- | []]; exact I | destruct Hin].
Qed.

(** ** The transcript against the submitted history *)

Lemma filter_all {A : Type} (f : A -> bool) (l : list A) :
  Forall (fun x => f x = true) l -> filter f l = l.
Proof.
  induction 1 as [| x l Hx _ IH]; simpl; [reflexivity |].
  now rewrite Hx, IH.
Qed.

(** C4 (amended). For a request whose history turns all have sender "user"
    or "bot", when the runtime returns the conversation it was given followed
    by new messages, every response the handler returns has a transcript that
    consists of one turn per history turn, with the same sender and content
    and in the same order, then the "user" turn of the new message, then the
    turns of the new messages: its length is the length of the history plus
    one plus the number of new turns.  The handler returns such a response
    whenever [AIMessage] accepts the records of the history and every record
    of the final conversation serializes. *)
Theorem C4_transcript_extends_history
  (request : ChatRequest) (p : Process) (new_messages : list BaseMessage) :
  Forall (fun turn => recognized_sender turn = true) (chat_history request) ->
  app_runnable p (toInternal (chat_history request) (message request))
  = Ok (toInternal (chat_history request) (message request) ++ new_messages)%list ->
  (forall r p',
     chat_endpoint request p = (Returns r, p') ->
     exists new_turns,
       new_chat_history new_messages = Ok new_turns
       /\ List.length new_turns
          = List.length (filter conversation_message new_messages)
       /\ map role_and_content (response_chat_history r)
          = (map role_and_content (chat_history request)
               ++ ("user", message request) :: map role_and_content new_turns)%list
       /\ List.length (response_chat_history r)
          = (List.length (chat_history request) + 1 + List.length new_turns)%nat)
  /\ (records_accepted (chat_history request) ->
      records_serialize
        (toInternal (chat_history request) (message request) ++ new_messages)%list ->
      exists r, fst (chat_endpoint request p) = Returns r).
Proof.
  intros Hrec Hrun.
  set (conv := toInternal (chat_history request) (message request)) in *.
  split.
  - intros r p' Hret.
    apply chat_endpoint_Returns in Hret
      as (conv' & final_messages & Hconv' & Hrun' & Hturns & _ & _).
    apply full_chat_history_spec in Hconv' as [_ ->]. fold conv in Hrun'.
    rewrite Hrun in Hrun'. injection Hrun' as <-.
    apply new_chat_history_app in Hturns as (ts & new_turns & Hts & Hnew & Heq).
    unfold conv, toInternal in Hts.
    apply new_chat_history_app in Hts as (hs & last & Hhs & Hlast & ->).
    simpl in Hlast. injection Hlast as <-.
    apply history_round_trip in Hhs. rewrite (filter_all _ _ Hrec) in Hhs.
    assert (Hmap : map role_and_content (response_chat_history r)
                   = (map role_and_content (chat_history request)
                        ++ ("user", message request)
                        :: map role_and_content new_turns)%list).
    { rewrite Heq, !map_app, Hhs, <- app_assoc. reflexivity. }
    exists new_turns. split; [exact Hnew |]. split; [| split].
    + apply new_chat_history_spec in Hnew. symmetry. eapply Forall2_length, Hnew.
    + exact Hmap.
    + apply (f_equal (@List.length _)) in Hmap.
      rewrite length_map, length_app in Hmap. simpl in Hmap.
      rewrite !length_map in Hmap. lia.
  - intros Hacc Hser.
    assert (Hconv : full_chat_history request = Ok conv)
      by (apply full_chat_history_spec; now split).
    destruct (new_chat_history_total _ Hser) as [turns Hturns].
    exists (mkChatResponse (ai_response_content (conv ++ new_messages)) turns).
    replace (chat_endpoint request p)
      with (Returns (mkChatResponse (ai_response_content (conv ++ new_messages)) turns),
            snd (ainvoke conv p)); [reflexivity |].
    symmetry. apply chat_endpoint_Returns.
    exists conv, (conv ++ new_messages)%list. now repeat split.
Qed.

(** ** Failures *)

(** X20. Once the conversation is built, an exception [e] raised by the
    runtime, or by the translation of its final conversation, ends the handler
    with [HTTPException(status_code=500)] whose detail is "Internal server
    error: " followed by [str(e)], sent as status 500 with that detail; the
    error is printed, the runtime was invoked once, with the conversation, and
    no response object is returned. *)
Theorem C5_failures_inside_try
  (request : ChatRequest) (p : Process) (conv : list BaseMessage) (e : Exception) :
  full_chat_history request = Ok conv ->
  (app_runnable p conv = Raise e
   \/ exists final_messages,
        app_runnable p conv = Ok final_messages
        /\ new_chat_history final_messages = Raise e) ->
  fst (chat_endpoint request p)
  = RaisesHTTPException 500 ("Internal server error: " ++ exc_str e)
  /\ respond (fst (chat_endpoint request p))
     = mkHTTPResponse 500 (JSONDetail ("Internal server error: " ++ exc_str e))
  /\ (forall r, fst (chat_endpoint request p) <> Returns r)
  /\ ainvoke_calls (snd (chat_endpoint request p)) = append (ainvoke_calls p) conv
  /\ stdout (snd (chat_endpoint request p))
     = append (stdout p) ("Error during chat processing: " ++ exc_str e).
Proof.
  intros Hconv Hraise.
  assert (Hend : chat_endpoint request p
                 = (RaisesHTTPException 500 ("Internal server error: " ++ exc_str e),
                    print ("Error during chat processing: " ++ exc_str e)
                          (snd (ainvoke conv p)))).
  { unfold chat_endpoint, build_response. rewrite Hconv. simpl.
    destruct Hraise as [-> | [final_messages [-> Hnew]]]; simpl.
    - reflexivity.
    - rewrite Hnew. reflexivity. }
  rewrite Hend. simpl. repeat split. discriminate.
Qed.

(** * Further properties of the handler *)

(** ** The answer *)

Lemma scan_reversed_Some (msgs : list BaseMessage) (msg : BaseMessage) :
  scan_reversed msgs = Some msg ->
  exists c, msg = AIMessage c [] /\ In msg msgs.
Proof.
  induction msgs as [| m rest IH]; simpl; [discriminate |].
  destruct m as [c | c tcs | c id | c]; try discriminate.
  - destruct tcs as [| tc tcs]; simpl.
    + intros [= <-]. exists c. split; [reflexivity | now left].
    + intros H. destruct (IH H) as [c' [-> Hin]]. exists c'. split; [reflexivity | now right].
  - intros H. destruct (IH H) as [c' [-> Hin]]. exists c'. split; [reflexivity | now right].
  - intros H. destruct (IH H) as [c' [-> Hin]]. exists c'. split; [reflexivity | now right].
Qed.

Lemma scan_reversed_None (msgs : list BaseMessage) :
  (forall c, ~ In (AIMessage c []) msgs) -> scan_reversed msgs = None.
Proof.
  intros Hnone. destruct (scan_reversed msgs) as [msg |] eqn:Hscan; [| reflexivity].
  apply scan_reversed_Some in Hscan as [c [-> Hin]]. now elim (Hnone c).
Qed.

Lemma scan_reversed_stops_at_human (later earlier : list BaseMessage) (h : string) :
  scan_reversed (later ++ HumanMessage h :: earlier) = scan_reversed later.
Proof.
  induction later as [| m later IH]; simpl; [reflexivity |].
  destruct m as [c | c tcs | c id | c]; auto.
  now destruct tcs.
Qed.

Lemma ai_response_content_cases (final_messages : list BaseMessage) :
  ai_response_content final_messages = thinking_placeholder
  \/ In (AIMessage (ai_response_content final_messages) []) final_messages.
Proof.
  unfold ai_response_content.
  destruct (scan_reversed (rev final_messages)) as [msg |] eqn:Hscan; [| now left].
  right. apply scan_reversed_Some in Hscan as [c [-> Hin]].
  simpl. now apply in_rev.
Qed.

Lemma ai_response_content_after_human (pre suf : list BaseMessage) (h : string) :
  ai_response_content (pre ++ HumanMessage h :: suf) = ai_response_content suf.
Proof.
  unfold ai_response_content.
  rewrite rev_app_distr. simpl rev. rewrite <- app_assoc. simpl app.
  now rewrite scan_reversed_stops_at_human.
Qed.

(** X1. The answer is never the text of a human message, of a tool result
    or of an assistant message that still carries tool calls: it is either the
    placeholder or the content of an assistant message without tool calls
    that occurs in the final conversation; and it is the placeholder when the
    conversation has no such message. *)
Theorem answer_is_complete_assistant_content_or_placeholder
  (final_messages : list BaseMessage) :
  (ai_response_content final_messages = thinking_placeholder
   \/ In (AIMessage (ai_response_content final_messages) []) final_messages)
  /\ ((forall c, ~ In (AIMessage c []) final_messages) ->
      ai_response_content final_messages = thinking_placeholder).
Proof.
  split; [apply ai_response_content_cases |].
  intros Hnone. unfold ai_response_content.
  rewrite scan_reversed_None; [reflexivity |].
  intros c Hin. apply (Hnone c). now apply in_rev.
Qed.

(** X2. Messages up to and including the last human message have no part in
    the answer: whatever precedes a human message, the answer is the one
    extracted from the messages that follow it. *)
Theorem answer_ignores_messages_up_to_last_human
  (pre pre' suf : list BaseMessage) (h h' : string) :
  ai_response_content (pre ++ HumanMessage h :: suf) = ai_response_content suf
  /\ ai_response_content (pre ++ HumanMessage h :: suf)
     = ai_response_content (pre' ++ HumanMessage h' :: suf).
Proof.
  split.
  - apply ai_response_content_after_human.
  - now rewrite !ai_response_content_after_human.
Qed.

(** X3. When the runtime returns the conversation it was given followed by
    new messages, the response text is extracted from the new messages alone:
    an answer found in the submitted history is never returned. *)
Theorem response_comes_from_new_messages
  (request : ChatRequest) (p p' : Process) (r : ChatResponse)
  (conv new_messages : list BaseMessage) :
  full_chat_history request = Ok conv ->
  app_runnable p conv = Ok (conv ++ new_messages)%list ->
  chat_endpoint request p = (Returns r, p') ->
  response r = ai_response_content new_messages
  /\ ((forall c, ~ In (AIMessage c []) new_messages) ->
      response r = thinking_placeholder).
Proof.
  intros Hconv Hrun Hret.
  apply chat_endpoint_Returns in Hret
    as (conv' & final_messages & Hconv' & Hrun' & _ & Hresp & _).
  rewrite Hconv in Hconv'. injection Hconv' as <-.
  rewrite Hrun in Hrun'. injection Hrun' as <-.
  apply full_chat_history_spec in Hconv as [_ ->].
  assert (Heq : response r = ai_response_content new_messages).
  { rewrite Hresp. unfold toInternal. rewrite <- app_assoc. simpl app.
    apply ai_response_content_after_human. }
  split; [exact Heq |].
  intros Hnone. rewrite Heq. unfold ai_response_content.
  rewrite scan_reversed_None; [reflexivity |].
  intros c Hin. apply (Hnone c). now apply in_rev.
Qed.

Lemma Forall2_In_l {A B : Type} (R : A -> B -> Prop) (l : list A) (l' : list B) (x : A) :
  Forall2 R l l' -> In x l -> exists y, In y l' /\ R x y.
Proof.
  induction 1 as [| a b l l' Hab _ IH]; intros Hin; [destruct Hin |].
  destruct Hin as [<- | Hin].
  - exists b. split; [now left | exact Hab].
  - destruct (IH Hin) as [y [Hy Hxy]]. exists y. split; [now right | exact Hxy].
Qed.

(** X4. In a response the handler returns, the response text is the
    placeholder or the content of a "bot" turn without tool calls of the
    returned transcript. *)
Theorem response_is_a_turn_of_the_transcript
  (request : ChatRequest) (p p' : Process) (r : ChatResponse) :
  chat_endpoint request p = (Returns r, p') ->
  response r = thinking_placeholder
  \/ In (mkChatMessage "bot" (response r) []) (response_chat_history r).
Proof.
  intros Hret.
  apply chat_endpoint_Returns in Hret
    as (conv & final_messages & _ & _ & Hnew & Hresp & _).
  destruct (ai_response_content_cases final_messages) as [Hp | Hin].
  - left. now rewrite Hresp.
  - right. rewrite <- Hresp in Hin.
    apply new_chat_history_spec in Hnew.
    assert (Hf : In (AIMessage (response r) []) (filter conversation_message final_messages))
      by (apply filter_In; now split).
    destruct (Forall2_In_l _ _ _ _ Hnew Hf) as [turn [Hturn Hwire]].
    inversion Hwire as [| c tcs ds Hds |]; subst.
    inversion Hds; subst. exact Hturn.
Qed.

(** ** The three ways the handler ends *)

Lemma chat_endpoint_cases (request : ChatRequest) (p : Process) :
  (exists e,
     full_chat_history request = Raise e
     /\ chat_endpoint request p = (Propagates e, p))
  \/ (exists conv r,
        full_chat_history request = Ok conv
        /\ chat_endpoint request p = (Returns r, snd (ainvoke conv p)))
  \/ (exists conv e,
        full_chat_history request = Ok conv
        /\ chat_endpoint request p
           = (RaisesHTTPException 500 ("Internal server error: " ++ exc_str e),
              print ("Error during chat processing: " ++ exc_str e)
                    (snd (ainvoke conv p)))).
Proof.
  unfold chat_endpoint.
  destruct (full_chat_history request) as [conv | e]; [| left; now exists e].
  right. simpl.
  destruct (final_messages <- app_runnable p conv ;; build_response final_messages)
    as [r | e].
  - left. now exists conv, r.
  - right. now exists conv, e.
Qed.

(** X5. Whatever the request and the libraries do, the handler invokes the
    runtime at most once: not at all when the conversation cannot be built
    (the exception then leaves the handler and the process is untouched), and
    otherwise exactly once, with the conversation built from the request. *)
Theorem handler_invokes_runtime_at_most_once (request : ChatRequest) (p : Process) :
  (exists e,
     full_chat_history request = Raise e
     /\ chat_endpoint request p = (Propagates e, p))
  \/ (exists conv,
        full_chat_history request = Ok conv
        /\ ainvoke_calls (snd (chat_endpoint request p))
           = append (ainvoke_calls p) conv
        /\ forall e, fst (chat_endpoint request p) <> Propagates e).
Proof.
  destruct (chat_endpoint_cases request p)
    as [(e & He & Hend) | [(conv & r & Hc & Hend) | (conv & e & Hc & Hend)]].
  - left. now exists e.
  - right. exists conv. rewrite Hend. simpl.
    split; [exact Hc | split; [reflexivity | intros e'; discriminate]].
  - right. exists conv. rewrite Hend. simpl.
    split; [exact Hc | split; [reflexivity | intros e'; discriminate]].
Qed.

(** X6. The only [HTTPException] the handler raises has status 500 and a
    detail that starts with "Internal server error: "; the line "Error during
    chat processing: ..." is printed then, and in no other case does the
    handler print anything. *)
Theorem handler_raises_only_status_500 (request : ChatRequest) (p : Process) :
  (forall status_code detail,
     fst (chat_endpoint request p) = RaisesHTTPException status_code detail ->
     status_code = 500%Z
     /\ exists e,
          detail = "Internal server error: " ++ exc_str e
          /\ String.prefix "Internal server error: " detail = true
          /\ stdout (snd (chat_endpoint request p))
             = append (stdout p) ("Error during chat processing: " ++ exc_str e))
  /\ ((forall status_code detail,
         fst (chat_endpoint request p) <> RaisesHTTPException status_code detail) ->
      stdout (snd (chat_endpoint request p)) = stdout p).
Proof.
  destruct (chat_endpoint_cases request p)
    as [(e & He & Hend) | [(conv & r & Hc & Hend) | (conv & e & Hc & Hend)]];
    rewrite Hend; simpl; split.
  - intros status_code detail H. discriminate H.
  - intros _. reflexivity.
  - intros status_code detail H. discriminate H.
  - intros _. reflexivity.
  - intros status_code detail [= <- <-]. split; [reflexivity |].
    exists e. split; [reflexivity | split; [| reflexivity]].
    cbn. now destruct (exc_str e).
  - intros Hno. now elim (Hno 500%Z ("Internal server error: " ++ exc_str e)).
Qed.

Lemma history_messages_rejected (pre post : list ChatMessage) (turn : ChatMessage)
  (e : Exception) :
  records_accepted pre ->
  sender turn = "bot" ->
  AIMessage_rejects (tool_calls turn) = Some e ->
  history_messages (pre ++ turn :: post) = Raise e.
Proof.
  intros Hacc Hb Hrej.
  induction Hacc as [| t pre Ht _ IH]; simpl.
  - rewrite Hb. simpl. unfold new_AIMessage. now rewrite Hrej.
  - destruct (String.eqb_spec (sender t) "user") as [Hu | Hu].
    + now rewrite IH.
    + destruct (String.eqb_spec (sender t) "bot") as [Hbt | Hbt].
      * unfold new_AIMessage. rewrite (Ht Hbt). simpl. now rewrite IH.
      * exact IH.
Qed.

Lemma history_messages_Raise_inv (turns : list ChatMessage) (e : Exception) :
  history_messages turns = Raise e ->
  exists pre turn post,
    turns = (pre ++ turn :: post)%list
    /\ records_accepted pre
    /\ sender turn = "bot"
    /\ AIMessage_rejects (tool_calls turn) = Some e.
Proof.
  unfold records_accepted.
  induction turns as [| t rest IH]; simpl; [discriminate |].
  assert (Hlater : history_messages rest = Raise e ->
                   (sender t = "bot" -> AIMessage_rejects (tool_calls t) = None) ->
                   exists pre turn post,
                     t :: rest = (pre ++ turn :: post)%list
                     /\ Forall (fun turn0 => sender turn0 = "bot" ->
                                   AIMessage_rejects (tool_calls turn0) = None) pre
                     /\ sender turn = "bot"
                     /\ AIMessage_rejects (tool_calls turn) = Some e).
  { intros Hrest Ht. destruct (IH Hrest) as (pre & turn & post & Heq & Hacc & Hb & Hrej).
    exists (t :: pre), turn, post. rewrite Heq. repeat split; auto. }
  destruct (String.eqb_spec (sender t) "user") as [Hu | Hu].
  - destruct (history_messages rest) as [later | e0]; simpl; [discriminate |].
    intros [= ->]. apply Hlater; [reflexivity |].
    intros Hb. rewrite Hu in Hb. discriminate.
  - destruct (String.eqb_spec (sender t) "bot") as [Hb | Hb].
    + unfold new_AIMessage.
      destruct (AIMessage_rejects (tool_calls t)) as [e0 |] eqn:Hrej0; simpl.
      * intros [= ->]. exists [], t, rest. repeat split; auto.
      * destruct (history_messages rest) as [later | e1]; simpl; [discriminate |].
        intros [= ->]. apply Hlater; [reflexivity | auto].
    + intros Hrest. apply Hlater; [exact Hrest |].
      intros Hs. contradiction.
Qed.

Lemma history_messages_Raise (turns : list ChatMessage) (e : Exception) :
  history_messages turns = Raise e <->
  exists pre turn post,
    turns = (pre ++ turn :: post)%list
    /\ records_accepted pre
    /\ sender turn = "bot"
    /\ AIMessage_rejects (tool_calls turn) = Some e.
Proof.
  split.
  - apply history_messages_Raise_inv.
  - intros (pre & turn & post & -> & Hacc & Hb & Hrej).
    now apply history_messages_rejected.
Qed.

(** X7. An exception leaves the handler uncaught exactly when [AIMessage]
    rejects the records of a "bot" turn of the history; the exception is that
    of the first such turn.  Turns of other senders are never validated, and
    the process is left as it was. *)
Theorem uncaught_exception_is_first_rejected_bot_turn
  (request : ChatRequest) (p : Process) (e : Exception) :
  fst (chat_endpoint request p) = Propagates e <->
  exists pre turn post,
    chat_history request = (pre ++ turn :: post)%list
    /\ records_accepted pre
    /\ sender turn = "bot"
    /\ AIMessage_rejects (tool_calls turn) = Some e.
Proof.
  rewrite <- history_messages_Raise.
  destruct (chat_endpoint_cases request p)
    as [(e0 & He & Hend) | [(conv & r & Hc & Hend) | (conv & e0 & Hc & Hend)]];
    rewrite Hend; simpl.
  - unfold full_chat_history in He.
    destruct (history_messages (chat_history request)) as [ms | e1]; simpl in He;
      [discriminate |].
    injection He as ->. split; intros [= ->]; reflexivity.
  - unfold full_chat_history in Hc.
    destruct (history_messages (chat_history request)) as [ms | e1]; simpl in Hc;
      [| discriminate].
    split; discriminate.
  - unfold full_chat_history in Hc.
    destruct (history_messages (chat_history request)) as [ms | e1]; simpl in Hc;
      [| discriminate].
    split; discriminate.
Qed.

(** X8. When no assistant message of the final conversation carries tool
    calls, the handler returns a response whatever the records' [dict()]
    would do: the method is not called, every returned turn has an empty
    [tool_calls], and there is one turn per Human, Assistant and ToolResult
    message. *)
Theorem conversation_without_tool_calls_is_returned
  (request : ChatRequest) (p : Process) (conv final_messages : list BaseMessage) :
  full_chat_history request = Ok conv ->
  app_runnable p conv = Ok final_messages ->
  (forall c tcs, In (AIMessage c tcs) final_messages -> tcs = []) ->
  exists r,
    chat_endpoint request p = (Returns r, snd (ainvoke conv p))
    /\ response r = ai_response_content final_messages
    /\ Forall (fun turn => tool_calls turn = []) (response_chat_history r)
    /\ List.length (response_chat_history r)
       = List.length (filter conversation_message final_messages).
Proof.
  intros Hconv Hrun Hnone.
  destruct (new_chat_history_total final_messages) as [turns Hturns].
  { intros c tcs tc Hin Htc. rewrite (Hnone c tcs Hin) in Htc. destruct Htc. }
  exists (mkChatResponse (ai_response_content final_messages) turns).
  split; [| split; [reflexivity | split]].
  - apply chat_endpoint_Returns. exists conv, final_messages. now repeat split.
  - simpl. apply new_chat_history_spec in Hturns.
    assert (Hsub : forall c tcs,
               In (AIMessage c tcs) (filter conversation_message final_messages) ->
               tcs = []).
    { intros c tcs Hin. apply filter_In in Hin as [Hin _]. eauto. }
    clear Hnone Hrun.
    induction Hturns as [| m t ms ts Hmt _ IH]; constructor.
    + destruct Hmt as [c | c tcs ds Hds | out id]; simpl; try reflexivity.
      rewrite (Hsub c tcs (or_introl eq_refl)) in Hds. now inversion Hds.
    + apply IH. intros c tcs Hin. apply (Hsub c tcs). now right.
  - simpl. apply new_chat_history_spec in Hturns.
    symmetry. eapply Forall2_length, Hturns.
Qed.

(** ** The translations *)

Lemma new_chat_history_append (front back : list BaseMessage) :
  new_chat_history (front ++ back)
  = (ts1 <- new_chat_history front ;;
     ts2 <- new_chat_history back ;;
     Ok (ts1 ++ ts2)%list).
Proof.
  induction front as [| msg front IH]; simpl.
  - now destruct (new_chat_history back).
  - rewrite IH.
    destruct msg as [c | c tcs | c id | c]; simpl.
    + destruct (new_chat_history front); simpl; [| reflexivity].
      now destruct (new_chat_history back).
    + destruct (if truthy tcs then comprehension tc_dict tcs else Ok []);
        simpl; [| reflexivity].
      destruct (new_chat_history front); simpl; [| reflexivity].
      now destruct (new_chat_history back).
    + destruct (new_chat_history front); simpl; [| reflexivity].
      now destruct (new_chat_history back).
    + reflexivity.
Qed.

Lemma history_messages_append (front back : list ChatMessage) :
  history_messages (front ++ back)
  = (ms1 <- history_messages front ;;
     ms2 <- history_messages back ;;
     Ok (ms1 ++ ms2)%list).
Proof.
  induction front as [| turn front IH]; simpl.
  - now destruct (history_messages back).
  - rewrite IH.
    destruct (String.eqb (sender turn) "user").
    + destruct (history_messages front); simpl; [| reflexivity].
      now destruct (history_messages back).
    + destruct (String.eqb (sender turn) "bot"); [| reflexivity].
      destruct (new_AIMessage (content turn) (tool_calls turn)); simpl; [| reflexivity].
      destruct (history_messages front); simpl; [| reflexivity].
      now destruct (history_messages back).
Qed.

(** X9. Both translations work message by message: the translation of two
    lists one after the other is the translation of the first followed by that
    of the second, and when one of them raises, the exception is that of the
    first failure in list order. *)
Theorem translations_distribute_over_append
  (front back : list BaseMessage) (earlier later : list ChatMessage) :
  new_chat_history (front ++ back)
  = (ts1 <- new_chat_history front ;;
     ts2 <- new_chat_history back ;;
     Ok (ts1 ++ ts2)%list)
  /\ history_messages (earlier ++ later)
     = (ms1 <- history_messages earlier ;;
        ms2 <- history_messages later ;;
        Ok (ms1 ++ ms2)%list).
Proof.
  split; [apply new_chat_history_append | apply history_messages_append].
Qed.

Lemma string_app_assoc (s t u : string) : (s ++ t) ++ u = s ++ (t ++ u).
Proof. induction s as [| a s IH]; simpl; [reflexivity | now rewrite IH]. Qed.

Lemma string_length_app (s t : string) :
  String.length (s ++ t) = (String.length s + String.length t)%nat.
Proof. induction s as [| a s IH]; simpl; [reflexivity | now rewrite IH]. Qed.

Lemma tool_output_collision (head sep tail id a b : string) :
  head ++ id ++ sep ++ (a ++ sep ++ b) ++ tail
  = head ++ (id ++ sep ++ a) ++ sep ++ b ++ tail.
Proof. now rewrite !string_app_assoc. Qed.

(** X10. The turn made of a tool result does not determine the result: for
    all texts [id], [a] and [b], the tool result with call identifier [id] and
    output [a ++ "): " ++ b] and the tool result with call identifier
    [id ++ "): " ++ a] and output [b] are different messages with the same
    transcript. *)
Theorem tool_result_turn_is_not_injective (id a b : string) :
  new_chat_history [ToolMessage (a ++ "): " ++ b) id]
  = new_chat_history [ToolMessage b (id ++ "): " ++ a)]
  /\ ToolMessage (a ++ "): " ++ b) id <> ToolMessage b (id ++ "): " ++ a).
Proof.
  split.
  - unfold new_chat_history, ChatMessage_default, bind.
    do 3 f_equal.
    exact (tool_output_collision "*(Tool Output for " "): " "*" id a b).
  - intros [= _ Hid].
    apply (f_equal String.length) in Hid.
    rewrite !string_length_app in Hid. simpl in Hid. lia.
Qed.

Lemma transcript_turns_to_internal (msgs : list BaseMessage) (turns : list ChatMessage) :
  Forall2 toWire_turn msgs turns ->
  List.length (flat_map turn_toInternal turns) = List.length turns
  /\ map message_content (flat_map turn_toInternal turns) = map content turns
  /\ Forall human_or_assistant (flat_map turn_toInternal turns).
Proof.
  induction 1 as [| m t ms ts Hmt _ (IHl & IHc & IHf)]; simpl.
  - repeat split. constructor.
  - rewrite length_app, map_app, IHl, IHc.
    destruct Hmt as [c | c tcs ds _ | out id]; cbn;
      (split; [reflexivity | split; [reflexivity |]]);
      constructor; try exact I; exact IHf.
Qed.

(** X11. A transcript the outbound translation returned can be sent back as
    history: when [AIMessage] accepts its records, every turn is translated
    (none is dropped), with its content unchanged, into a Human or an
    Assistant message; a tool result comes back as an Assistant message
    without tool calls whose content is the flattened text. *)
Theorem returned_transcript_can_be_resubmitted
  (messages : list BaseMessage) (turns : list ChatMessage) :
  new_chat_history messages = Ok turns ->
  records_accepted turns ->
  exists conv,
    history_messages turns = Ok conv
    /\ List.length conv = List.length turns
    /\ map message_content conv = map content turns
    /\ Forall human_or_assistant conv
    /\ (forall out id,
          In (ToolMessage out id) messages ->
          In (AIMessage ("*(Tool Output for " ++ id ++ "): " ++ out ++ "*") []) conv).
Proof.
  intros Hturns Hacc.
  exists (flat_map turn_toInternal turns).
  apply new_chat_history_spec in Hturns.
  destruct (transcript_turns_to_internal _ _ Hturns) as (Hl & Hc & Hf).
  split; [apply history_messages_spec; now split |].
  split; [exact Hl |]. split; [exact Hc |]. split; [exact Hf |].
  intros out id Hin.
  assert (Hin' : In (ToolMessage out id) (filter conversation_message messages))
    by (apply filter_In; now split).
  destruct (Forall2_In_l _ _ _ _ Hturns Hin') as [turn [Hturn Hwire]].
  apply in_flat_map. exists turn. split; [exact Hturn |].
  inversion Hwire; subst. cbn. now left.
Qed.

(** X12. The inbound translation ignores the turns whose sender is neither
    "user" nor "bot", and the records of the turns whose sender is not "bot":
    removing either changes neither the conversation built nor the exception
    raised. *)
Theorem inbound_ignores_unknown_senders_and_user_records (turns : list ChatMessage) :
  history_messages (filter recognized_sender turns) = history_messages turns
  /\ history_messages (map drop_user_records turns) = history_messages turns.
Proof.
  split.
  - induction turns as [| t rest IH]; simpl; [reflexivity |].
    destruct (String.eqb (sender t) "user") eqn:Hu.
    + assert (Hr : recognized_sender t = true)
        by (unfold recognized_sender; now rewrite Hu).
      rewrite Hr. simpl. now rewrite Hu, IH.
    + destruct (String.eqb (sender t) "bot") eqn:Hb.
      * assert (Hr : recognized_sender t = true)
          by (unfold recognized_sender; now rewrite Hu, Hb).
        rewrite Hr. simpl. now rewrite Hu, Hb, IH.
      * assert (Hr : recognized_sender t = false)
          by (unfold recognized_sender; now rewrite Hu, Hb).
        rewrite Hr. exact IH.
  - induction turns as [| t rest IH]; simpl; [reflexivity |].
    rewrite IH. unfold drop_user_records.
    destruct (String.eqb (sender t) "bot") eqn:Hb; simpl; rewrite ?Hb.
    + reflexivity.
    + now destruct (String.eqb (sender t) "user").
Qed.

(** ** Validation of the request body *)

Lemma validate_items_rejects {A : Type} (validate : Any -> option A)
  (items : list Any) (v : Any) :
  In v items -> validate v = None -> validate_items validate items = None.
Proof.
  induction items as [| x items IH]; intros Hin Hv; [destruct Hin |].
  simpl. destruct Hin as [-> | Hin].
  - now rewrite Hv.
  - rewrite (IH Hin Hv). now destruct (validate x).
Qed.

(** X13. A body that has a text [message] and no [chat_history] is accepted
    with an empty history, and the runtime is then invoked with the single
    Human message made of [message]; a turn that has texts for [sender] and
    [content] and no [tool_calls] is read with an empty list of records. *)
Theorem omitted_fields_take_their_defaults (d : Dict) (m : string) (p : Process) :
  dict_get "message" d = Some (PyStr m) ->
  dict_get "chat_history" d = None ->
  validate_ChatRequest (PyDict d) = Some (mkChatRequest m [])
  /\ ainvoke_calls (snd (post_chat (PyDict d) p))
     = append (ainvoke_calls p) [HumanMessage m]
  /\ (forall t s c,
        dict_get "sender" t = Some (PyStr s) ->
        dict_get "content" t = Some (PyStr c) ->
        dict_get "tool_calls" t = None ->
        validate_ChatMessage (PyDict t) = Some (mkChatMessage s c [])).
Proof.
  intros Hm Hh.
  assert (Hv : validate_ChatRequest (PyDict d) = Some (mkChatRequest m []))
    by (simpl; now rewrite Hm, Hh).
  split; [exact Hv |]. split.
  - unfold post_chat. rewrite Hv.
    pose proof (chat_endpoint_ainvoke_calls (mkChatRequest m []) p
                  [HumanMessage m] eq_refl) as Hcalls.
    destruct (chat_endpoint (mkChatRequest m []) p) as [o p']. exact Hcalls.
  - intros t s c Hs Hc Ht. simpl. now rewrite Hs, Hc, Ht.
Qed.

(** X14. A body whose history holds a turn without [sender] or without
    [content] is rejected as a whole with status 422, whatever its other
    fields are: the handler does not run and the process is left as it
    was. *)
Theorem turn_without_sender_or_content_is_rejected
  (d t : Dict) (items : list Any) (p : Process) :
  dict_get "chat_history" d = Some (PyList items) ->
  In (PyDict t) items ->
  dict_get "sender" t = None \/ dict_get "content" t = None ->
  post_chat (PyDict d) p = (mkHTTPResponse 422 JSONValidationErrors, p).
Proof.
  intros Hh Hin Hmissing.
  assert (Ht : validate_ChatMessage (PyDict t) = None).
  { simpl. destruct Hmissing as [-> | ->]; simpl; [reflexivity |].
    now destruct (validate_required validate_str (dict_get "sender" t)). }
  unfold post_chat.
  replace (validate_ChatRequest (PyDict d)) with (@None ChatRequest); [reflexivity |].
  simpl. rewrite Hh. simpl.
  rewrite (validate_items_rejects validate_ChatMessage items (PyDict t) Hin Ht).
  now destruct (validate_required validate_str (dict_get "message" d)).
Qed.

(** X15. Every request is answered with status 200, 422 or 500: 200 with
    the response the handler returned, 422 exactly when the body fails
    validation (the process is then untouched), 500 when the handler
    raised. *)
Theorem post_chat_status_is_200_422_or_500 (body : Any) (p : Process) :
  (http_status (fst (post_chat body p)) = 200%Z
   /\ exists request r p',
        validate_ChatRequest body = Some request
        /\ chat_endpoint request p = (Returns r, p')
        /\ http_body (fst (post_chat body p)) = JSONChatResponse r)
  \/ (http_status (fst (post_chat body p)) = 422%Z
      /\ validate_ChatRequest body = None
      /\ snd (post_chat body p) = p)
  \/ (http_status (fst (post_chat body p)) = 500%Z
      /\ exists request,
           validate_ChatRequest body = Some request
           /\ forall r, fst (chat_endpoint request p) <> Returns r).
Proof.
  unfold post_chat.
  destruct (validate_ChatRequest body) as [request |]; [| right; left; now repeat split].
  destruct (chat_endpoint_cases request p)
    as [(e & He & Hend) | [(conv & r & Hc & Hend) | (conv & e & Hc & Hend)]];
    rewrite Hend; simpl.
  - right; right. split; [reflexivity |]. exists request.
    split; [reflexivity | intros r; rewrite Hend; discriminate].
  - left. split; [reflexivity |]. exists request, r, (snd (ainvoke conv p)).
    split; [reflexivity | split; [exact Hend | reflexivity]].
  - right; right. split; [reflexivity |]. exists request.
    split; [reflexivity | intros r; rewrite Hend; discriminate].
Qed.

(** ** Start of the process *)

(** X16. Without the model credential (unset or empty) the module raises
    [ValueError] with the text "GOOGLE_API_KEY not found in .env file.",
    whether or not the search credential is set: no process is started. *)
Theorem startup_requires_model_credential (env : Environ) :
  truthy_env (env_GOOGLE_API_KEY env) = false ->
  startup env
  = Raise (mkException "ValueError" "GOOGLE_API_KEY not found in .env file.")
  /\ truthy_env None = false
  /\ truthy_env (Some "") = false.
Proof.
  intros Hg. unfold startup. rewrite Hg. now repeat split.
Qed.

(** X17. A started process has exactly one tool, and its runtime is built
    over that tool with the model "gemini-1.5-flash" at temperature 0: with a
    search credential, the live tool holding the credential, and nothing
    printed; without, the stub, and the warning printed.  The runtime has not
    been invoked. *)
Theorem started_process_has_one_search_tool (env : Environ) (p : Process) :
  startup env = Ok p ->
  truthy_env (env_GOOGLE_API_KEY env) = true
  /\ List.length (tools p) = 1%nat
  /\ app_runnable p
     = create_react_agent
         (mkChatGoogleGenerativeAI "gemini-1.5-flash"
            (env_value (env_GOOGLE_API_KEY env)) 0)
         (tools p)
  /\ tavily_search_enabled p = truthy_env (env_TAVILY_API_KEY env)
  /\ (tavily_search_enabled p = true ->
      tools p = [tavily_search (env_value (env_TAVILY_API_KEY env))]
      /\ stdout p = [])
  /\ (tavily_search_enabled p = false ->
      tools p = [placeholder_search] /\ stdout p = [tavily_warning])
  /\ ainvoke_calls p = [].
Proof.
  unfold startup.
  destruct (truthy_env (env_GOOGLE_API_KEY env)); simpl; [| discriminate].
  destruct (truthy_env (env_TAVILY_API_KEY env)); simpl;
    intros [= <-]; simpl; repeat split; try reflexivity; discriminate.
Qed.

(** X18. With the search client built and its invocation returning, the
    live tool passes the query under the key "query" to a client capped at 5
    results and returns [str] of what the client returned. *)
Theorem tavily_search_returns_the_results
  (api_key query : string) (tavily : Tavily) (results : Any) :
  TavilySearchResults api_key 5 = Ok tavily ->
  tavily_invoke tavily [("query", PyStr query)] = Ok results ->
  tool_func (tavily_search api_key) query = Ok (str_results results)
  /\ tool_name (tavily_search api_key) = "tavily_search".
Proof.
  intros Hclient Hinvoke. split; [| reflexivity].
  simpl. unfold tavily_results. rewrite Hclient. simpl. now rewrite Hinvoke.
Qed.

(** ** Requests do not affect each other *)

Lemma post_chat_reads_runtime_only (body : Any) (p q : Process) :
  app_runnable p = app_runnable q ->
  fst (post_chat body p) = fst (post_chat body q).
Proof.
  intros Hrun. unfold post_chat.
  destruct (validate_ChatRequest body) as [request |]; [| reflexivity].
  unfold chat_endpoint.
  destruct (full_chat_history request) as [conv | e]; [| reflexivity].
  simpl. rewrite Hrun.
  now destruct (final_messages <- app_runnable q conv ;; build_response final_messages).
Qed.

(** X19. The handler keeps no conversation state: the response to a request
    does not depend on the requests served before it.  Served in sequence
    from a process, the bodies get the responses each of them would get if it
    were the first. *)
Theorem responses_do_not_depend_on_earlier_requests (bodies : list Any) (p : Process) :
  fst (serve bodies p) = map (fun body => fst (post_chat body p)) bodies
  /\ List.length (fst (serve bodies p)) = List.length bodies.
Proof.
  assert (H : forall q, app_runnable q = app_runnable p ->
                        fst (serve bodies q)
                        = map (fun body => fst (post_chat body p)) bodies).
  { induction bodies as [| body rest IH]; intros q Hq; simpl; [reflexivity |].
    pose proof (post_chat_reads_runtime_only body q p Hq) as Hfirst.
    pose proof (post_chat_process body q) as (_ & _ & Hrun).
    destruct (post_chat body q) as [r q1]. simpl in *.
    specialize (IH q1 (eq_trans Hrun Hq)).
    destruct (serve rest q1) as [rs q2]. simpl in *.
    now rewrite Hfirst, IH. }
  split.
  - now apply H.
  - rewrite (H p eq_refl). apply length_map.
Qed.

End Backend.

(** * Instances *)

Lemma C1_answer_extraction_witness :
  Forall (fun m => passed_over m = true) [ToolMessage "sunny" "call_1"]
  /\ ai_response_content
       ([HumanMessage "weather?"; AIMessage "" [[("id", PyStr "call_1")]]]
          ++ AIMessage "It is sunny." [] :: [ToolMessage "sunny" "call_1"])
     = "It is sunny.".
Proof.
  assert (H : Forall (fun m => passed_over m = true) [ToolMessage "sunny" "call_1"])
    by (repeat constructor).
  split; [exact H |].
  apply (C1_answer_extraction
           [HumanMessage "weather?"; AIMessage "" [[("id", PyStr "call_1")]]]
           [ToolMessage "sunny" "call_1"] "It is sunny." H).
Defined.

Lemma C4_transcript_extends_history_witness :
  fst (chat_endpoint require_name typed_record missing_dict request_plain
         (stub_process greeting_agent)) = Returns greeting_response
  /\ map role_and_content (response_chat_history greeting_response)
     = ([("user", "weather?"); ("bot", "Sunny.")]
          ++ [("user", "and tomorrow?"); ("bot", "Hello!")])%list
  /\ List.length (response_chat_history greeting_response) = (2 + 1 + 1)%nat
  /\ exists r,
       fst (chat_endpoint require_name typed_record missing_dict request_plain
              (stub_process greeting_agent)) = Returns r.
Proof.
  destruct (C4_transcript_extends_history require_name typed_record missing_dict
              request_plain (stub_process greeting_agent) [AIMessage "Hello!" []])
    as [Hshape Hreturns].
  - repeat constructor.
  - reflexivity.
  - split; [reflexivity |].
    destruct (Hshape greeting_response
                (snd (chat_endpoint require_name typed_record missing_dict
                        request_plain (stub_process greeting_agent))) eq_refl)
      as (new_turns & Hnew & _ & Hmap & Hlen).
    simpl in Hnew. injection Hnew as <-.
    split; [exact Hmap |]. split; [exact Hlen |].
    apply Hreturns.
    + repeat constructor; discriminate.
    + intros c tcs tc Hin Htc. simpl in Hin.
      repeat (destruct Hin as [Hin | Hin];
              [inversion Hin; subst; destruct Htc |]).
      destruct Hin.
Defined.

(** C4, as stated, fails: with three history turns of an unknown sender the
    returned transcript has two turns, fewer than the history; and a "user"
    turn that carries a record comes back without it, so the history is not a
    prefix of the transcript. *)
Lemma C4_counterexample :
  (exists r,
     fst (chat_endpoint accept_records typed_record copy_record request_unknown_senders
            (stub_process greeting_agent)) = Returns r
     /\ response_chat_history r
        = [mkChatMessage "user" "hi" []; mkChatMessage "bot" "Hello!" []]
     /\ (List.length (response_chat_history r)
         < List.length (chat_history request_unknown_senders))%nat)
  /\ (exists r,
        fst (chat_endpoint accept_records typed_record copy_record request_user_record
               (stub_process greeting_agent)) = Returns r
        /\ firstn (List.length (chat_history request_user_record))
                  (response_chat_history r)
           <> chat_history request_user_record).
Proof.
  split.
  - eexists. split; [reflexivity |]. split; [reflexivity |]. simpl. lia.
  - eexists. split; [reflexivity |]. simpl. discriminate.
Qed.

Lemma C5_failures_inside_try_witness :
  fst (chat_endpoint accept_records typed_record copy_record request_plain
         (stub_process failing_agent))
  = RaisesHTTPException 500 "Internal server error: model timed out"
  /\ respond (fst (chat_endpoint accept_records typed_record copy_record request_plain
                     (stub_process failing_agent)))
     = mkHTTPResponse 500 (JSONDetail "Internal server error: model timed out")
  /\ (forall r,
        fst (chat_endpoint accept_records typed_record copy_record request_plain
               (stub_process failing_agent)) <> Returns r)
  /\ ainvoke_calls (snd (chat_endpoint accept_records typed_record copy_record request_plain
                           (stub_process failing_agent)))
     = append [] (toInternal typed_record (chat_history request_plain) (message request_plain))
  /\ stdout (snd (chat_endpoint accept_records typed_record copy_record request_plain
                    (stub_process failing_agent)))
     = append (stdout (stub_process failing_agent))
              "Error during chat processing: model timed out".
Proof.
  apply (C5_failures_inside_try accept_records typed_record copy_record request_plain
           (stub_process failing_agent)
           (toInternal typed_record (chat_history request_plain) (message request_plain))
           model_timeout).
  - reflexivity.
  - left. reflexivity.
Defined.

(** C5. The catch-all handler does not cover the inbound translation: when
    [AIMessage] rejects a record of the history, the exception leaves the
    handler as it is; no [HTTPException] is raised, nothing is printed, the
    runtime is not invoked, and the response sent does not carry the
    exception's text.  The same exception raised after the [try] was entered
    would be answered with the detail "Internal server error: ...". *)
Theorem C5_inbound_exception_escapes_handler :
  full_chat_history require_name typed_record request_nameless_record
  = Raise name_required
  /\ chat_endpoint require_name typed_record missing_dict request_nameless_record
       (stub_process greeting_agent)
     = (Propagates name_required, stub_process greeting_agent)
  /\ respond (fst (chat_endpoint require_name typed_record missing_dict
                     request_nameless_record (stub_process greeting_agent)))
     = mkHTTPResponse 500 (PlainText "Internal Server Error")
  /\ respond (fst (chat_endpoint require_name typed_record missing_dict
                     request_nameless_record (stub_process greeting_agent)))
     <> mkHTTPResponse 500
          (JSONDetail ("Internal server error: " ++ exc_str name_required))
  /\ ~ (forall e,
          full_chat_history require_name typed_record request_nameless_record
          = Raise e ->
          fst (chat_endpoint require_name typed_record missing_dict
                 request_nameless_record (stub_process greeting_agent))
          = RaisesHTTPException 500 ("Internal server error: " ++ exc_str e)).
Proof.
  split; [reflexivity |]. split; [reflexivity |]. split; [reflexivity |].
  split; [discriminate |].
  intros H. specialize (H name_required eq_refl). discriminate H.
Qed.

Lemma C6_search_failure_is_reported_as_text_witness :
  tool_func (tavily_search unit ready_client unreachable_invoke str_any "t-key") "rocq"
  = Ok "Error performing Tavily search: connection refused"
  /\ String.prefix "Error performing Tavily search:"
       "Error performing Tavily search: connection refused" = true
  /\ (forall q e',
        tool_func (tavily_search unit ready_client unreachable_invoke str_any "t-key") q
        <> Raise e')
  /\ (forall q, exists text,
        tool_func (tavily_search unit ready_client unreachable_invoke str_any "t-key") q
        = Ok text).
Proof.
  apply (C6_search_failure_is_reported_as_text unit ready_client unreachable_invoke
           str_any "t-key" "rocq" connection_refused).
  right. exists tt. split; reflexivity.
Defined.

Lemma C7_stub_when_credential_absent_witness :
  exists p,
    startup unit ready_client unreachable_invoke str_any searching_agent
      env_without_search = Ok p
    /\ tavily_search_enabled p = false
    /\ tools p = [placeholder_search]
    /\ app_runnable p
       = searching_agent (mkChatGoogleGenerativeAI "gemini-1.5-flash" "g-key" 0)
           [placeholder_search]
    /\ (forall query, tool_func placeholder_search query = Ok unavailable_text)
    /\ (forall bodies,
          tavily_search_enabled
            (snd (serve accept_records typed_record copy_record bodies p)) = false
          /\ tools (snd (serve accept_records typed_record copy_record bodies p))
             = [placeholder_search]
          /\ app_runnable (snd (serve accept_records typed_record copy_record bodies p))
             = app_runnable p).
Proof.
  apply (C7_stub_when_credential_absent unit ready_client unreachable_invoke str_any
           searching_agent accept_records typed_record copy_record env_without_search);
    reflexivity.
Defined.

Lemma C8_round_trip_witness :
  exists back,
    (conv <- full_chat_history require_name typed_record
               (mkChatRequest "and tomorrow?" (chat_history request_plain)) ;;
     new_chat_history missing_dict conv) = Ok back
    /\ map role_and_content back
       = [("user", "weather?"); ("bot", "Sunny."); ("user", "and tomorrow?")]
    /\ Forall (fun m => match m with ToolMessage _ _ => False | _ => True end)
              (toInternal typed_record (chat_history request_plain) "and tomorrow?").
Proof.
  apply (C8_round_trip require_name typed_record missing_dict
           (chat_history request_plain) "and tomorrow?").
  - repeat constructor; discriminate.
  - intros c tcs tc Hin Htc. simpl in Hin.
    repeat (destruct Hin as [Hin | Hin];
            [inversion Hin; subst; destruct Htc |]).
    destruct Hin.
Defined.

(** C8, as stated, fails: a wire conversation with a "bot" turn whose record
    [AIMessage] rejects has no internal form, and one with a "bot" turn whose
    record is accepted is not translated back, as [dict()] raises on the
    record; in both cases the round trip returns no turns. *)
Lemma C8_counterexample :
  (conv <- full_chat_history require_name typed_record request_nameless_record ;;
   new_chat_history missing_dict conv) = Raise name_required
  /\ (conv <- full_chat_history require_name typed_record request_bot_record ;;
      new_chat_history missing_dict conv) = Raise no_dict_method
  /\ ~ (forall turns newMessage,
          exists back,
            (conv <- full_chat_history require_name typed_record
                       (mkChatRequest newMessage turns) ;;
             new_chat_history missing_dict conv) = Ok back
            /\ map role_and_content back
               = (map role_and_content (filter recognized_sender turns)
                    ++ [("user", newMessage)])%list).
Proof.
  split; [reflexivity |]. split; [reflexivity |].
  intros H.
  destruct (H (chat_history request_nameless_record) "hi") as [back [Hback _]].
  discriminate Hback.
Qed.

Lemma C9_missing_message_is_rejected_witness :
  post_chat accept_records typed_record copy_record body_without_message
    (stub_process greeting_agent)
  = (mkHTTPResponse 422 JSONValidationErrors, stub_process greeting_agent)
  /\ (400 <= http_status
               (fst (post_chat accept_records typed_record copy_record body_without_message
                       (stub_process greeting_agent))) < 500)%Z
  /\ http_status (fst (post_chat accept_records typed_record copy_record body_without_message
                         (stub_process greeting_agent))) <> 500%Z
  /\ ainvoke_calls (snd (post_chat accept_records typed_record copy_record body_without_message
                           (stub_process greeting_agent))) = []
  /\ stdout (snd (post_chat accept_records typed_record copy_record body_without_message
                    (stub_process greeting_agent)))
     = stdout (stub_process greeting_agent).
Proof.
  apply (C9_missing_message_is_rejected accept_records typed_record copy_record
           body_without_message (stub_process greeting_agent)).
  reflexivity.
Defined.

Lemma C10_tool_calls_only_on_assistant_turns_witness :
  Forall2 (fun msg turn =>
             match msg with
             | HumanMessage c => turn = mkChatMessage "user" c []
             | AIMessage c tcs =>
                 sender turn = "bot" /\ content turn = c
                 /\ List.length (tool_calls turn) = List.length tcs
             | ToolMessage output id =>
                 turn = mkChatMessage "bot"
                          ("*(Tool Output for " ++ id ++ "): " ++ output ++ "*") []
             | OtherMessage _ => False
             end)
          (filter conversation_message reporting_final)
          (response_chat_history reporting_response)
  /\ Forall (fun turn => sender turn = "user" -> tool_calls turn = [])
            (response_chat_history reporting_response)
  /\ Forall (fun turn => tool_calls turn <> [] ->
                         exists c tcs,
                           In (AIMessage c tcs) reporting_final /\ tcs <> []
                           /\ sender turn = "bot" /\ content turn = c)
            (response_chat_history reporting_response).
Proof.
  apply (C10_tool_calls_only_on_assistant_turns require_name typed_record missing_dict
           request_plain (stub_process reporting_agent)
           (snd (chat_endpoint require_name typed_record missing_dict request_plain
                   (stub_process reporting_agent)))
           reporting_response plain_conv reporting_final);
    reflexivity.
Defined.

(** C2, as stated, fails: the Assistant message built from a "bot" turn does
    not hold the turn's record verbatim when [AIMessage] stores it with the
    key [type] added, and a request with a record that [AIMessage] rejects
    yields no conversation, so no final Human message either. *)
Lemma C2_counterexample :
  full_chat_history require_name typed_record request_bot_record
  = Ok [AIMessage "Searching." [typed_record search_call]; HumanMessage "hi"]
  /\ full_chat_history require_name typed_record request_bot_record
     <> Ok (toInternal_verbatim (chat_history request_bot_record)
              (message request_bot_record))
  /\ full_chat_history require_name typed_record request_nameless_record
     = Raise name_required
  /\ (forall conv,
        full_chat_history require_name typed_record request_nameless_record
        <> Ok conv).
Proof.
  split; [reflexivity |]. split; [| split; [reflexivity |]].
  - intros H. vm_compute in H. discriminate H.
  - intros conv H. discriminate H.
Qed.

(** * Records that are plain dictionaries *)

Lemma new_chat_history_missing_dict (messages : list BaseMessage) (e : Exception) :
  new_chat_history missing_dict messages = Raise e -> e = no_dict_method.
Proof.
  induction messages as [| msg rest IH]; simpl; [discriminate |].
  destruct msg as [c | c tcs | c id | c]; simpl.
  - destruct (new_chat_history missing_dict rest); simpl; [discriminate |].
    intros [= <-]. now apply IH.
  - destruct tcs as [| tc tcs]; simpl.
    + destruct (new_chat_history missing_dict rest); simpl; [discriminate |].
      intros [= <-]. now apply IH.
    + now intros [= <-].
  - destruct (new_chat_history missing_dict rest); simpl; [discriminate |].
    intros [= <-]. now apply IH.
  - exact IH.
Qed.

(** C3. With the records of a message being plain [dict]s, the outbound
    translation does not serialize them: for every final conversation in which
    an assistant message carries a tool call, [tc.dict()] raises
    [AttributeError], no transcript is built, and the handler ends with
    status 500 and the detail "Internal server error: 'dict' object has no
    attribute 'dict'". *)
Theorem C3_assistant_records_are_not_serialized
  (messages : list BaseMessage) (c : string) (tcs : list ToolCall) :
  In (AIMessage c tcs) messages ->
  tcs <> [] ->
  new_chat_history missing_dict messages = Raise no_dict_method
  /\ (forall turns, new_chat_history missing_dict messages <> Ok turns)
  /\ (forall AIMessage_rejects AIMessage_record request p conv,
        full_chat_history AIMessage_rejects AIMessage_record request = Ok conv ->
        app_runnable p conv = Ok messages ->
        fst (chat_endpoint AIMessage_rejects AIMessage_record missing_dict request p)
        = RaisesHTTPException 500
            "Internal server error: 'dict' object has no attribute 'dict'").
Proof.
  intros Hin Hne.
  assert (Hnot : forall turns, new_chat_history missing_dict messages <> Ok turns).
  { intros turns Hturns. apply new_chat_history_spec in Hturns.
    assert (Hin' : In (AIMessage c tcs) (filter conversation_message messages))
      by (apply filter_In; now split).
    destruct (Forall2_In_l _ _ _ _ Hturns Hin') as [turn [_ Hwire]].
    inversion Hwire as [| c' tcs' ds Hds |]; subst.
    destruct Hds as [| tc d tcs' ds' Htc _]; [now elim Hne | discriminate Htc]. }
  assert (Hraise : new_chat_history missing_dict messages = Raise no_dict_method).
  { destruct (new_chat_history missing_dict messages) as [turns | e] eqn:Hnew.
    - now elim (Hnot turns).
    - now rewrite (new_chat_history_missing_dict messages e Hnew). }
  split; [exact Hraise |]. split; [exact Hnot |].
  intros AIMessage_rejects AIMessage_record request p conv Hconv Hrun.
  unfold chat_endpoint, build_response. rewrite Hconv. simpl.
  rewrite Hrun. simpl. rewrite Hraise. reflexivity.
Qed.

Lemma C3_assistant_records_are_not_serialized_witness :
  new_chat_history missing_dict searching_final = Raise no_dict_method
  /\ (forall turns, new_chat_history missing_dict searching_final <> Ok turns)
  /\ fst (chat_endpoint require_name typed_record missing_dict request_plain
            (stub_process searching_agent))
     = RaisesHTTPException 500
         "Internal server error: 'dict' object has no attribute 'dict'".
Proof.
  destruct (C3_assistant_records_are_not_serialized searching_final "" [search_call])
    as (Hraise & Hnot & Hend).
  - simpl. right; right; right. now left.
  - discriminate.
  - split; [exact Hraise |]. split; [exact Hnot |].
    apply (Hend require_name typed_record request_plain
             (stub_process searching_agent) plain_conv); reflexivity.
Defined.

(** * Sample runs *)

(** A complete body reaches the handler and is answered with status 200. *)
Example post_chat_hello :
  fst (post_chat accept_records typed_record copy_record body_hello (stub_process greeting_agent))
  = mkHTTPResponse 200
      (JSONChatResponse
         (mkChatResponse "Hello!"
            [mkChatMessage "user" "hello" []; mkChatMessage "bot" "Hello!" []]))
  /\ ainvoke_calls
       (snd (post_chat accept_records typed_record copy_record body_hello
               (stub_process greeting_agent)))
     = [[HumanMessage "hello"]].
Proof. split; reflexivity. Qed.

(** With both credentials the live search tool is registered; without the
    model credential the module raises. *)
Example startup_with_search :
  match startup unit ready_client unreachable_invoke str_any searching_agent
          env_with_search with
  | Ok p =>
      tavily_search_enabled p = true
      /\ map tool_name (tools p) = ["tavily_search"]
      /\ stdout p = []
  | Raise _ => False
  end.
Proof. repeat split. Qed.

Example startup_without_model_credential :
  startup unit ready_client unreachable_invoke str_any searching_agent
    (mkEnviron None (Some "t-key"))
  = Raise (mkException "ValueError" "GOOGLE_API_KEY not found in .env file.").
Proof. reflexivity. Qed.

(** A runtime that calls the live search tool while the provider is
    unreachable still ends with an answer: the tool's text. *)
Example search_failure_still_answers :
  match startup unit ready_client unreachable_invoke str_any searching_agent
          env_with_search with
  | Ok p =>
      exists r,
        fst (chat_endpoint accept_records typed_record copy_record request_plain p) = Returns r
        /\ response r = "Error performing Tavily search: connection refused"
  | Raise _ => False
  end.
Proof. simpl. eexists. split; reflexivity. Qed.

(** The transcript of a run in which the runtime called the stub. *)
Example searching_run :
  fst (chat_endpoint accept_records typed_record copy_record request_plain
         (stub_process searching_agent))
  = Returns searching_response.
Proof. reflexivity. Qed.

(** When the records have no [dict()] method, a final conversation in which
    the assistant called a tool ends in the server error. *)
Example records_without_dict_method :
  fst (chat_endpoint accept_records typed_record missing_dict request_plain
         (stub_process searching_agent))
  = RaisesHTTPException 500
      "Internal server error: 'dict' object has no attribute 'dict'".
Proof. reflexivity. Qed.

(** * Instances of the further properties *)

Lemma response_comes_from_new_messages_witness :
  response searching_response
  = ai_response_content
      [AIMessage "" [search_call]; ToolMessage unavailable_text "call_1";
       AIMessage unavailable_text []].
Proof.
  apply (response_comes_from_new_messages accept_records typed_record copy_record request_plain
           (stub_process searching_agent)
           (snd (chat_endpoint accept_records typed_record copy_record request_plain
                   (stub_process searching_agent)))
           searching_response
           (toInternal typed_record (chat_history request_plain) (message request_plain))
           [AIMessage "" [search_call]; ToolMessage unavailable_text "call_1";
            AIMessage unavailable_text []]);
    reflexivity.
Defined.

Lemma response_is_a_turn_of_the_transcript_witness :
  response searching_response = thinking_placeholder
  \/ In (mkChatMessage "bot" (response searching_response) [])
        (response_chat_history searching_response).
Proof.
  apply (response_is_a_turn_of_the_transcript accept_records typed_record copy_record request_plain
           (stub_process searching_agent)
           (snd (chat_endpoint accept_records typed_record copy_record request_plain
                   (stub_process searching_agent)))
           searching_response).
  reflexivity.
Defined.

Lemma conversation_without_tool_calls_is_returned_witness :
  exists r,
    chat_endpoint accept_records typed_record missing_dict request_plain
      (stub_process greeting_agent)
    = (Returns r,
       snd (ainvoke (toInternal typed_record (chat_history request_plain) (message request_plain))
              (stub_process greeting_agent)))
    /\ response r = "Hello!"
    /\ Forall (fun turn => tool_calls turn = []) (response_chat_history r)
    /\ List.length (response_chat_history r) = 4%nat.
Proof.
  apply (conversation_without_tool_calls_is_returned accept_records typed_record missing_dict
           request_plain (stub_process greeting_agent)
           (toInternal typed_record (chat_history request_plain) (message request_plain))
           (toInternal typed_record (chat_history request_plain) (message request_plain)
              ++ [AIMessage "Hello!" []])%list).
  - reflexivity.
  - reflexivity.
  - intros c tcs Hin. simpl in Hin.
    repeat (destruct Hin as [Hin | Hin]; [now inversion Hin |]). destruct Hin.
Defined.

Lemma returned_transcript_can_be_resubmitted_witness :
  exists conv,
    history_messages accept_records typed_record (response_chat_history searching_response)
    = Ok conv
    /\ List.length conv = 6%nat
    /\ map message_content conv
       = map content (response_chat_history searching_response)
    /\ Forall human_or_assistant conv
    /\ (forall out id,
          In (ToolMessage out id)
             [HumanMessage "weather?"; AIMessage "Sunny." [];
              HumanMessage "and tomorrow?"; AIMessage "" [search_call];
              ToolMessage unavailable_text "call_1"; AIMessage unavailable_text []] ->
          In (AIMessage ("*(Tool Output for " ++ id ++ "): " ++ out ++ "*") []) conv).
Proof.
  apply (returned_transcript_can_be_resubmitted accept_records typed_record copy_record
           [HumanMessage "weather?"; AIMessage "Sunny." [];
            HumanMessage "and tomorrow?"; AIMessage "" [search_call];
            ToolMessage unavailable_text "call_1"; AIMessage unavailable_text []]
           (response_chat_history searching_response)).
  - reflexivity.
  - repeat constructor.
Defined.

Lemma omitted_fields_take_their_defaults_witness :
  validate_ChatRequest body_hello = Some (mkChatRequest "hello" [])
  /\ ainvoke_calls (snd (post_chat accept_records typed_record copy_record body_hello
                           (stub_process greeting_agent)))
     = append [] [HumanMessage "hello"]
  /\ (forall t s c,
        dict_get "sender" t = Some (PyStr s) ->
        dict_get "content" t = Some (PyStr c) ->
        dict_get "tool_calls" t = None ->
        validate_ChatMessage (PyDict t) = Some (mkChatMessage s c [])).
Proof.
  apply (omitted_fields_take_their_defaults accept_records typed_record copy_record
           [("message", PyStr "hello")] "hello" (stub_process greeting_agent));
    reflexivity.
Defined.

Lemma turn_without_sender_or_content_is_rejected_witness :
  post_chat accept_records typed_record copy_record body_turn_without_sender
    (stub_process greeting_agent)
  = (mkHTTPResponse 422 JSONValidationErrors, stub_process greeting_agent).
Proof.
  apply (turn_without_sender_or_content_is_rejected accept_records typed_record copy_record
           [("message", PyStr "hi");
            ("chat_history",
             PyList [PyDict [("sender", PyStr "user"); ("content", PyStr "weather?")];
                     PyDict [("content", PyStr "Sunny.")]])]
           [("content", PyStr "Sunny.")]
           [PyDict [("sender", PyStr "user"); ("content", PyStr "weather?")];
            PyDict [("content", PyStr "Sunny.")]]
           (stub_process greeting_agent)).
  - reflexivity.
  - right. left. reflexivity.
  - left. reflexivity.
Defined.

Lemma startup_requires_model_credential_witness :
  startup unit ready_client unreachable_invoke str_any searching_agent
    (mkEnviron (Some "") (Some "t-key"))
  = Raise (mkException "ValueError" "GOOGLE_API_KEY not found in .env file.")
  /\ truthy_env None = false
  /\ truthy_env (Some "") = false.
Proof.
  apply (startup_requires_model_credential unit ready_client unreachable_invoke str_any
           searching_agent (mkEnviron (Some "") (Some "t-key"))).
  reflexivity.
Defined.

Lemma started_process_has_one_search_tool_witness :
  truthy_env (env_GOOGLE_API_KEY env_without_search) = true
  /\ List.length (tools (stub_process greeting_agent)) = 1%nat
  /\ app_runnable (stub_process greeting_agent)
     = greeting_agent
         (mkChatGoogleGenerativeAI "gemini-1.5-flash"
            (env_value (env_GOOGLE_API_KEY env_without_search)) 0)
         (tools (stub_process greeting_agent))
  /\ tavily_search_enabled (stub_process greeting_agent)
     = truthy_env (env_TAVILY_API_KEY env_without_search)
  /\ (tavily_search_enabled (stub_process greeting_agent) = true ->
      tools (stub_process greeting_agent)
      = [tavily_search unit ready_client unreachable_invoke str_any
           (env_value (env_TAVILY_API_KEY env_without_search))]
      /\ stdout (stub_process greeting_agent) = [])
  /\ (tavily_search_enabled (stub_process greeting_agent) = false ->
      tools (stub_process greeting_agent) = [placeholder_search]
      /\ stdout (stub_process greeting_agent) = [tavily_warning])
  /\ ainvoke_calls (stub_process greeting_agent) = [].
Proof.
  apply (started_process_has_one_search_tool unit ready_client unreachable_invoke
           str_any greeting_agent env_without_search (stub_process greeting_agent)).
  reflexivity.
Defined.

Lemma tavily_search_returns_the_results_witness :
  tool_func (tavily_search unit ready_client one_result_invoke str_first_content "t-key")
            "rocq"
  = Ok "[{'content': 'rocq'}]"
  /\ tool_name (tavily_search unit ready_client one_result_invoke str_first_content
                  "t-key")
     = "tavily_search".
Proof.
  apply (tavily_search_returns_the_results unit ready_client one_result_invoke
           str_first_content "t-key" "rocq" tt
           (PyList [PyDict [("content", PyStr "rocq")]]));
    reflexivity.
Defined.
